(** * Remote agent registry and delegation router

    A shallow embedding of the routing core of the repository:

    - [router/app/host_agent.py]: the shared agent directory kept by
      [HostAgent], the history trimming hook [before_model_callback] and the
      delegation tool [HostAgent.send_message];
    - [router/app/remote_agent_connection.py]: [RemoteAgentConnections.send_message],
      unary and streamed;
    - [router/app/fastapi_host_server.py]: the management operations
      [add_agent] and [remove_agent];
    - [router/app/router_agent.py] and [agent/app/agent.py]: the two [stream]
      generators;
    - [router/app/agent_executor.py]: [MyAgentExecutor.execute].

    Python objects that are mutated in place (the class-level registries, the
    session state dictionary, the tool context actions, the request contents)
    are passed explicitly and returned.  Generators are modelled by the finite
    list of items they yield together with the way they end.  Exceptions are
    values of [PyExn].  Logging has no effect on any of these and is left out. *)

From Stdlib Require Import ZArith Lia.
From stdpp Require Import gmap strings list fin_maps.

Local Open Scope string_scope.
Local Open Scope Z_scope.
Local Open Scope list_scope.

(* ===================================================================== *)
(** * Part I: the embedding                                               *)
(* ===================================================================== *)

(** ** Python values shared by all components *)

(** Exceptions that the modelled code raises or lets through. *)
Inductive PyExn :=
| ValueError (msg : string)
| AttributeError (msg : string)
| TypeError (msg : string)
| TimeoutError
| OtherError (msg : string).

(** [asyncio.TimeoutError] is caught by its own clause. *)
Definition is_timeout (e : PyExn) : bool :=
  match e with TimeoutError => true | _ => false end.

(** [str(e)] *)
Definition exn_str (e : PyExn) : string :=
  match e with
  | ValueError m | AttributeError m | TypeError m | OtherError m => m
  | TimeoutError => ""
  end.

(** Truth value of a string: empty is false. *)
Definition str_truthy (s : string) : bool :=
  match s with EmptyString => false | _ => true end.

(** Truth value of [None | str]. *)
Definition opt_str_truthy (o : option string) : bool :=
  match o with Some s => str_truthy s | None => false end.

(** JSON-like payloads: the dictionaries of structured parts and of
    [function_response.model_dump()]. *)
#[local] Set Warnings "-register-all".
Inductive Json :=
| JNull
| JBool (b : bool)
| JInt (z : Z)
| JStr (s : string)
| JList (l : list Json)
| JDict (d : list (string * Json)).

(** [d.get(k)] on the entries of a dictionary. *)
Fixpoint dict_get (k : string) (d : list (string * Json)) : option Json :=
  match d with
  | [] => None
  | (k', v) :: d' => if decide (k = k') then Some v else dict_get k d'
  end.

(** ** a2a.types *)
Module A2A.

Record AgentCapabilities := { streaming : option bool }.

Record AgentCard := {
  name : string;
  description : string;
  url : string;
  capabilities : AgentCapabilities }.

(** Truth value of [card.capabilities.streaming] ([None] is false). *)
Definition declares_streaming (c : AgentCard) : bool :=
  match streaming (capabilities c) with Some b => b | None => false end.

Inductive TaskState :=
| submitted | working | input_required | completed | canceled
| failed | rejected | auth_required | unknown.

#[export] Instance TaskState_eq_dec : EqDecision TaskState.
Proof. solve_decision. Defined.

(** [part.root]: [kind] is 'text', 'data' or 'file'.  A file carries its
    bytes base64-encoded, or none when it is given by reference. *)
Inductive Part :=
| TextPart (text : string)
| DataPart (data : Json)
| FilePart (file_name : option string) (mimeType : option string) (bytes : option string).

Record Message := {
  role : string;
  parts : list Part;
  messageId : string;
  msg_contextId : option string;
  msg_taskId : option string }.

Record TaskStatus := { state : TaskState; message : option Message }.

Record Artifact := { artifact_name : option string; artifact_parts : list Part }.

(** [artifacts] is [None] or a list; both an absent and an empty list are
    false in [if task.artifacts]. *)
Record Task := {
  id : string;
  contextId : option string;
  status : TaskStatus;
  artifacts : list Artifact }.

Record TaskStatusUpdateEvent := {
  su_taskId : string;
  su_status : TaskStatus;
  final : bool }.

Record TaskArtifactUpdateEvent := {
  au_taskId : string;
  au_artifact : Artifact;
  lastChunk : option bool }.

(** [TaskCallbackArg = Task | TaskStatusUpdateEvent | TaskArtifactUpdateEvent] *)
Inductive TaskCallbackArg :=
| ArgTask (t : Task)
| ArgStatus (u : TaskStatusUpdateEvent)
| ArgArtifact (a : TaskArtifactUpdateEvent).

(** [hasattr(event, 'final') and event.final]: only status updates have the
    attribute. *)
Definition final_flag (event : TaskCallbackArg) : bool :=
  match event with
  | ArgStatus u => final u
  | ArgTask _ | ArgArtifact _ => false
  end.

Record JSONRPCError := { code : Z; error_message : string }.

Record MessageSendConfiguration := { acceptedOutputModes : list string }.

Record MessageSendParams := {
  request_id : string;
  request_message : Message;
  configuration : option MessageSendConfiguration }.

(** What [A2AClient.send_message] gives for one request: it raises (transport
    failure, timeout), or answers with an error envelope, a message or a
    task. *)
Inductive UnaryReply :=
| UnaryRaises (e : PyExn)
| UnaryError (err : JSONRPCError)
| UnaryMessage (m : Message)
| UnaryTask (t : Task).

(** One response of [A2AClient.send_message_streaming]: its root is an error
    envelope, which has an [error] and no [result] attribute, or a success
    whose [result] is a [Message] or a task event. *)
Inductive StreamingResponse :=
| StreamError (err : JSONRPCError)
| StreamMessage (m : Message)
| StreamEvent (event : TaskCallbackArg).

(** The responses the stream yields and how it ends: exhausted ([None]) or
    with an exception. *)
Record Stream := {
  responses : list StreamingResponse;
  stream_failure : option PyExn }.

(** The behaviour of the [A2AClient] bound to one agent. *)
Record A2AClient := {
  send_message : MessageSendParams → UnaryReply;
  send_message_streaming : MessageSendParams → Stream }.

End A2A.

(** ** [remote_agent_connection.py] *)
Module RemoteAgentConnections.
Import A2A.

(** [RemoteAgentConnections.__init__]: the connection keeps the card it was
    built from; its [agent_client] is bound to that card, and what the client
    answers is an argument of [send_message] below. *)
Record t := { card : AgentCard }.

(** [Task | Message | None], or the error of an error envelope. *)
Inductive SendResult :=
| RTask (task : Task)
| RMessage (m : Message)
| RError (err : JSONRPCError)
| RNone.

(** [return task] at the end of the streamed branch. *)
Definition return_task (task : option Task) : SendResult :=
  match task with Some tk => RTask tk | None => RNone end.

Inductive Transport := Unary | Streamed.

Section SendMessage.

(** The bookkeeping the task-observer callback works on. *)
Context {St : Type}.

(** [TaskUpdateCallback]: called with the event and the card; its result is
    a task or [None]. *)
Definition TaskUpdateCallback : Type :=
  St → TaskCallbackArg → AgentCard → option Task * St.

(** What one call of [send_message] did: the value returned or the exception
    raised, the exchange used, how many responses were taken from the stream
    and the observer's bookkeeping afterwards. *)
Record Outcome := {
  returned : PyExn + SendResult;
  transport : Transport;
  consumed : nat;
  observer : St }.

(** What reading [response.root.result] raises on an error envelope; the
    loop reads it, for its log line, before it tests it. *)
Definition no_result_attribute : PyExn :=
  AttributeError "'JSONRPCErrorResponse' object has no attribute 'result'".

(** The [async for] loop of the streamed branch.  [task] is the loop's
    variable of that name, [n] counts the responses taken so far. *)
Fixpoint consume (self : t) (task_callback : option TaskUpdateCallback)
    (rs : list StreamingResponse) (failure : option PyExn)
    (task : option Task) (n : nat) (s : St) : Outcome :=
  match rs with
  | [] =>
      match failure with
      | Some e =>
          {| returned := inl e; transport := Streamed; consumed := n; observer := s |}
      | None =>
          {| returned := inr (return_task task); transport := Streamed;
             consumed := n; observer := s |}
      end
  | StreamError err :: _ =>
      {| returned := inl no_result_attribute; transport := Streamed;
         consumed := S n; observer := s |}
  | StreamMessage m :: _ =>
      {| returned := inr (RMessage m); transport := Streamed;
         consumed := S n; observer := s |}
  | StreamEvent event :: rs' =>
      let '(task', s') :=
        match task_callback with
        | Some cb => cb s event (card self)
        | None => (task, s)
        end in
      if final_flag event then
        {| returned := inr (return_task task'); transport := Streamed;
           consumed := S n; observer := s' |}
      else consume self task_callback rs' failure task' (S n) s'
  end.

(** [RemoteAgentConnections.send_message] *)
Definition send_message (self : t) (agent_client : A2AClient)
    (request : MessageSendParams) (task_callback : option TaskUpdateCallback)
    (streaming : bool) (s : St) : Outcome :=
  if streaming && declares_streaming (card self) then
    let stream := A2A.send_message_streaming agent_client request in
    consume self task_callback (responses stream) (stream_failure stream) None 0%nat s
  else
    match A2A.send_message agent_client request with
    | UnaryRaises e =>
        {| returned := inl e; transport := Unary; consumed := 0%nat; observer := s |}
    | UnaryError err =>
        {| returned := inr (RError err); transport := Unary; consumed := 0%nat;
           observer := s |}
    | UnaryMessage m =>
        {| returned := inr (RMessage m); transport := Unary; consumed := 0%nat;
           observer := s |}
    | UnaryTask result =>
        {| returned := inr (RTask result); transport := Unary; consumed := 0%nat;
           observer :=
             match task_callback with
             | Some cb => (cb s (ArgTask result) (card self)).2
             | None => s
             end |}
    end.

(** The events the loop takes from a stream of task events: all up to and
    including the first one flagged final. *)
Fixpoint taken (events : list TaskCallbackArg) : list TaskCallbackArg :=
  match events with
  | [] => []
  | event :: events' => event :: (if final_flag event then [] else taken events')
  end.

(** The callback called on each of these events in turn: the result of its
    last call ([task] when there was none) and its bookkeeping afterwards. *)
Fixpoint observe (cb : TaskUpdateCallback) (c : AgentCard)
    (events : list TaskCallbackArg) (task : option Task) (s : St) : option Task * St :=
  match events with
  | [] => (task, s)
  | event :: events' =>
      let '(task', s') := cb s event c in observe cb c events' task' s'
  end.

(** What the observer has made of a list of events: the callback's last
    result and bookkeeping, or nothing new without a callback. *)
Definition observed (task_callback : option TaskUpdateCallback) (c : AgentCard)
    (events : list TaskCallbackArg) (task : option Task) (s : St) : option Task * St :=
  match task_callback with
  | Some cb => observe cb c events task s
  | None => (task, s)
  end.

End SendMessage.

(** The value of the non-streaming branch for each answer of the client. *)
Definition unary_result (reply : UnaryReply) : PyExn + SendResult :=
  match reply with
  | UnaryRaises e => inl e
  | UnaryError err => inr (RError err)
  | UnaryMessage m => inr (RMessage m)
  | UnaryTask result => inr (RTask result)
  end.

(** What a response that is not a task event ends the streamed exchange
    with: a message is returned, an error envelope raises. *)
Definition closing_result (response : StreamingResponse) : option (PyExn + SendResult) :=
  match response with
  | StreamError err => Some (inl no_result_attribute)
  | StreamMessage m => Some (inr (RMessage m))
  | StreamEvent _ => None
  end.

Arguments Outcome : clear implicits.
Arguments TaskUpdateCallback : clear implicits.

End RemoteAgentConnections.

(** ** [host_agent.py]: the agent directory *)
Module HostAgent.
Import A2A.

(** One entry of [list_remote_agents]: [{'name': ..., 'description': ...}]. *)
Record AgentInfo := { info_name : string; info_description : string }.

(** The class-level registries [_global_remote_agent_connections],
    [_global_cards], [_global_addresses] and [_global_agents], shared by all
    instances.  The summary [_global_agents] is kept as the entries whose JSON
    lines it joins. *)
Record Registry := {
  remote_agent_connections : gmap string RemoteAgentConnections.t;
  cards : gmap string AgentCard;
  remote_agent_addresses : list string;
  agents : list AgentInfo }.

Definition empty_registry : Registry :=
  {| remote_agent_connections := ∅; cards := ∅;
     remote_agent_addresses := []; agents := [] |}.

(** [HostAgent.list_remote_agents].  The entries follow the map's own
    enumeration, Python's follow insertion order. *)
Definition list_remote_agents (r : Registry) : list AgentInfo :=
  if decide (remote_agent_connections r = ∅) then []
  else (λ kv, {| info_name := name kv.2; info_description := description kv.2 |})
         <$> map_to_list (cards r).

(** The recomputation of [_global_agents] that ends every registration and
    removal. *)
Definition refresh_agents (r : Registry) : Registry :=
  {| remote_agent_connections := remote_agent_connections r;
     cards := cards r;
     remote_agent_addresses := remote_agent_addresses r;
     agents := list_remote_agents r |}.

(** The address loop of [HostAgent.__init__]: append what is not there yet. *)
Definition add_address (addrs : list string) (addr : string) : list string :=
  if decide (addr ∈ addrs) then addrs else addrs ++ [addr].

(** [HostAgent.__init__], up to the start of the [register_agent_cards]
    task. *)
Definition init (remote_addresses : list string) (r : Registry) : Registry :=
  {| remote_agent_connections := remote_agent_connections r;
     cards := cards r;
     remote_agent_addresses :=
       foldl add_address (remote_agent_addresses r) remote_addresses;
     agents := agents r |}.

(** The two assignments [remote_agent_connections[card.name] = ...] and
    [cards[card.name] = card]; no suspension point lies between them. *)
Definition store_card (c : AgentCard) (r : Registry) : Registry :=
  {| remote_agent_connections :=
       <[name c := {| RemoteAgentConnections.card := c |}]> (remote_agent_connections r);
     cards := <[name c := c]> (cards r);
     remote_agent_addresses := remote_agent_addresses r;
     agents := agents r |}.

(** [HostAgent.register_agent_card] *)
Definition register_agent_card (c : AgentCard) (r : Registry) : Registry :=
  refresh_agents (store_card c r).

(** The loop of [HostAgent.register_agent_cards], the task started by the
    constructor.  [resolve] is the card resolver; a failed resolution raises
    and ends the task with the cards stored so far. *)
Fixpoint register_agent_cards_loop (resolve : string → PyExn + AgentCard)
    (addrs : list string) (r : Registry) : Registry * option PyExn :=
  match addrs with
  | [] => (r, None)
  | a :: rest =>
      match resolve a with
      | inl e => (r, Some e)
      | inr c => register_agent_cards_loop resolve rest (store_card c r)
      end
  end.

Definition register_agent_cards (resolve : string → PyExn + AgentCard)
    (r : Registry) : Registry * option PyExn :=
  match register_agent_cards_loop resolve (remote_agent_addresses r) r with
  | (r', None) => (refresh_agents r', None)
  | (r', Some e) => (r', Some e)
  end.

(** [list.remove(x)]: drops the first occurrence. *)
Fixpoint list_remove_first (x : string) (l : list string) : list string :=
  match l with
  | [] => []
  | y :: l' => if decide (x = y) then l' else y :: list_remove_first x l'
  end.

(** [HostAgent.remove_agent_card] *)
Definition remove_agent_card (agent_name : string) (r : Registry) : PyExn + Registry :=
  match remote_agent_connections r !! agent_name with
  | None => inl (ValueError ("Agent " +:+ agent_name +:+ " not found"))
  | Some connection =>
      let agent_url := url (RemoteAgentConnections.card connection) in
      let addrs := remote_agent_addresses r in
      inr (refresh_agents
             {| remote_agent_connections := delete agent_name (remote_agent_connections r);
                cards := delete agent_name (cards r);
                remote_agent_addresses :=
                  if str_truthy agent_url && bool_decide (agent_url ∈ addrs)
                  then list_remove_first agent_url addrs else addrs;
                agents := agents r |})
  end.

(** ** [host_agent.py]: history trimming *)

Definition HISTORY_LENGTH : Z := 3.

(** [HostAgent.before_model_callback]: the contents of the request after the
    call (the callback itself returns [None]). *)
Definition before_model_callback {A : Type} (contents : list A) : list A :=
  let n := Z.of_nat (length contents) in
  if (n =? 0)%Z then contents
  else if (n `mod` 2 =? 0)%Z then contents
  else
    let num_turns := ((n - 1) `div` 2)%Z in
    let keep_turns := Z.min HISTORY_LENGTH num_turns in
    let start_idx := ((num_turns - keep_turns) * 2)%Z in
    if (start_idx >? 0)%Z then drop (Z.to_nat start_idx) contents
    else contents.

(** ** [host_agent.py]: delegation *)

(** Values kept in the session state dictionary. *)
Inductive PyVal := VStr (s : string) | VBool (b : bool).

Definition val_truthy (v : option PyVal) : bool :=
  match v with
  | Some (VStr s) => str_truthy s
  | Some (VBool b) => b
  | None => false
  end.

(** [tool_context.actions] *)
Record EventActions := { skip_summarization : bool; escalate : bool }.

(** [types.Blob] *)
Record Blob := { mime_type : option string; data : string }.

(** The artifacts saved through [tool_context.save_artifact], latest last. *)
Definition ArtifactStore : Type := list (option string * Blob).

(** The part of the tool context the delegation reads and writes. *)
Record ToolContext := {
  state : gmap string PyVal;
  actions : EventActions;
  artifact_store : ArtifactStore }.

Definition set_state (k : string) (v : PyVal) (tc : ToolContext) : ToolContext :=
  {| state := <[k := v]> (state tc); actions := actions tc;
     artifact_store := artifact_store tc |}.

(** [actions.skip_summarization = True; actions.escalate = True] *)
Definition force_user_input (tc : ToolContext) : ToolContext :=
  {| state := state tc;
     actions := {| skip_summarization := true; escalate := true |};
     artifact_store := artifact_store tc |}.

(** What a content part becomes: text, the raw payload of a data part, or
    the [DataPart] that refers to a saved file. *)
Inductive Converted :=
| CText (text : string)
| CData (payload : Json)
| CFileRef (part : Part).

(** A field of a pydantic model declared [str | None]: anything else is
    refused when the model is built. *)
Definition as_optional_str (v : option PyVal) : PyExn + option string :=
  match v with
  | None => inr None
  | Some (VStr s) => inr (Some s)
  | Some (VBool _) => inl (OtherError "ValidationError")
  end.

(** Both flags of [tool_context.actions] are set: summarization is
    suppressed and control goes back to the human. *)
Definition escalated (tc : ToolContext) : Prop :=
  actions tc = {| skip_summarization := true; escalate := true |}.

(** [tc'] has the session state of [tc] and the flags of [tc] if they were
    set. *)
Definition keeps (tc tc' : ToolContext) : Prop :=
  state tc' = state tc ∧ (escalated tc → escalated tc').

Section Delegation.

(** The collaborators of a delegation: the base64 decoder, the artifact
    service behind [save_artifact], the source of [uuid.uuid4()] strings
    (by draw number) and, per agent card, the behaviour of its client. *)
Variable b64decode : string → PyExn + string.
Variable save_artifact : ArtifactStore → option string → Blob → PyExn + ArtifactStore.
Variable uuid4 : nat → string.
Variable network : AgentCard → A2AClient.

(** [convert_part] *)
Definition convert_part (part : Part) (tc : ToolContext) : ToolContext * (PyExn + Converted) :=
  match part with
  | TextPart text => (tc, inr (CText text))
  | DataPart payload => (tc, inr (CData payload))
  | FilePart file_id mimeType file_b64 =>
      match file_b64 with
      | None => (tc, inl (AttributeError "bytes"))
      | Some b64 =>
          match b64decode b64 with
          | inl e => (tc, inl e)
          | inr file_bytes =>
              let file_part := {| mime_type := mimeType; data := file_bytes |} in
              match save_artifact (artifact_store tc) file_id file_part with
              | inl e => (tc, inl e)
              | inr store' =>
                  ({| state := state tc;
                      actions := {| skip_summarization := true; escalate := true |};
                      artifact_store := store' |},
                   inr (CFileRef (DataPart (JDict
                     [("artifact-file-id",
                       match file_id with Some n => JStr n | None => JNull end)]))))
              end
          end
      end
  end.

(** [convert_parts] *)
Fixpoint convert_parts (ps : list Part) (tc : ToolContext)
    : ToolContext * (PyExn + list Converted) :=
  match ps with
  | [] => (tc, inr [])
  | p :: ps' =>
      match convert_part p tc with
      | (tc1, inl e) => (tc1, inl e)
      | (tc1, inr v) =>
          match convert_parts ps' tc1 with
          | (tc2, inl e) => (tc2, inl e)
          | (tc2, inr vs) => (tc2, inr (v :: vs))
          end
      end
  end.

(** The loop over [task.artifacts], extending [response]. *)
Fixpoint convert_artifacts (arts : list Artifact) (tc : ToolContext)
    : ToolContext * (PyExn + list Converted) :=
  match arts with
  | [] => (tc, inr [])
  | a :: arts' =>
      match convert_parts (artifact_parts a) tc with
      | (tc1, inl e) => (tc1, inl e)
      | (tc1, inr vs) =>
          match convert_artifacts arts' tc1 with
          | (tc2, inl e) => (tc2, inl e)
          | (tc2, inr ws) => (tc2, inr (vs ++ ws))
          end
      end
  end.

(** The end of the task branch: the parts of the status message, then the
    parts of every artifact. *)
Definition collect_response (task : Task) (tc : ToolContext)
    : ToolContext * (PyExn + list Converted) :=
  let '(tc1, from_message) :=
    match message (status task) with
    | Some m => convert_parts (parts m) tc
    | None => (tc, inr [])
    end in
  match from_message with
  | inl e => (tc1, inl e)
  | inr vs =>
      match convert_artifacts (artifacts task) tc1 with
      | (tc2, inl e) => (tc2, inl e)
      | (tc2, inr ws) => (tc2, inr (vs ++ ws))
      end
  end.

(** The states after which the session is no longer active. *)
Definition closing_states : list TaskState := [completed; canceled; failed; unknown].

(** The task branch of [send_message], from [task: Task = response] on. *)
Definition apply_task_policy (agent_name : string) (task : Task) (tc : ToolContext)
    : ToolContext * (PyExn + list Converted) :=
  let st := A2A.state (status task) in
  let tc1 := set_state "session_active" (VBool (negb (bool_decide (st ∈ closing_states)))) tc in
  let tc2 := match contextId task with
             | Some c => if str_truthy c then set_state "context_id" (VStr c) tc1 else tc1
             | None => tc1
             end in
  let tc3 := set_state "task_id" (VStr (id task)) tc2 in
  match st with
  | input_required => collect_response task (force_user_input tc3)
  | canceled =>
      (tc3, inl (ValueError ("Agent " +:+ agent_name +:+ " task " +:+ id task +:+ " is cancelled")))
  | failed =>
      (tc3, inl (ValueError ("Agent " +:+ agent_name +:+ " task " +:+ id task +:+ " failed")))
  | _ => collect_response task tc3
  end.

(** The bookkeeping of the task-observer callback handed to the
    constructor. *)
Context {St : Type}.

(** What the [try] block of [send_message] leaves behind: the tool context
    as mutated, what the block returned or raised, and the exchange with the
    remote agent when one took place. *)
Record Attempt := {
  context : ToolContext;
  outcome : PyExn + list Converted;
  exchange : option (RemoteAgentConnections.Outcome St) }.

(** The outbound request.  [draws] tells how many uuids were drawn before
    the request id. *)
Definition build_request (message : string) (messageId : string)
    (contextId taskId : option PyVal) (draws : nat) : PyExn + MessageSendParams :=
  match as_optional_str contextId, as_optional_str taskId with
  | inr ctx, inr tsk =>
      inr {| request_id := uuid4 draws;
             request_message :=
               {| role := "user"; parts := [TextPart message]; messageId := messageId;
                  msg_contextId := ctx; msg_taskId := tsk |};
             configuration :=
               Some {| acceptedOutputModes := ["text"; "text/plain"; "image/png"] |} |}
  | inl e, _ | _, inl e => inl e
  end.

(** The [try] block of [HostAgent.send_message].  A connection object is
    always true, so [if not client] never raises. *)
Definition send_message_try (self : Registry)
    (task_callback : option (RemoteAgentConnections.TaskUpdateCallback St))
    (agent_name message : string) (tc : ToolContext) (s : St) : Attempt :=
  match remote_agent_connections self !! agent_name with
  | None =>
      {| context := tc;
         outcome := inl (ValueError ("Agent " +:+ agent_name +:+ " not found"));
         exchange := None |}
  | Some client =>
      let tc := set_state "agent" (VStr agent_name) tc in
      let taskId := state tc !! "task_id" in
      let contextId := state tc !! "context_id" in
      let messageId := state tc !! "message_id" in
      let request :=
        if val_truthy messageId then
          match messageId with
          | Some (VStr m) => build_request message m contextId taskId 0
          | _ => inl (OtherError "ValidationError")
          end
        else build_request message (uuid4 0) contextId taskId 1 in
      match request with
      | inl e => {| context := tc; outcome := inl e; exchange := None |}
      | inr request =>
          let sent :=
            RemoteAgentConnections.send_message client
              (network (RemoteAgentConnections.card client))
              request task_callback false s in
          let '(tc', result) :=
            match RemoteAgentConnections.returned sent with
            | inl e => (tc, inl e)
            | inr (RemoteAgentConnections.RMessage m) => convert_parts (parts m) tc
            | inr (RemoteAgentConnections.RTask task) => apply_task_policy agent_name task tc
            | inr (RemoteAgentConnections.RError _) =>
                (tc, inl (AttributeError "'JSONRPCError' object has no attribute 'id'"))
            | inr RemoteAgentConnections.RNone =>
                (tc, inl (AttributeError "'NoneType' object has no attribute 'id'"))
            end in
          {| context := tc'; outcome := result; exchange := Some sent |}
      end
  end.

(** What the tool hands back to the decision collaborator: the converted
    parts, or the text of [traceback.format_exc()] for the exception caught
    at the boundary. *)
Inductive ToolResult :=
| Response (converted : list Converted)
| Traceback (e : PyExn).

(** [HostAgent.send_message]: the value returned and the tool context
    afterwards. *)
Definition send_message (self : Registry)
    (task_callback : option (RemoteAgentConnections.TaskUpdateCallback St))
    (agent_name message : string) (tc : ToolContext) (s : St) : ToolResult * ToolContext :=
  let attempt := send_message_try self task_callback agent_name message tc s in
  match outcome attempt with
  | inr response => (Response response, context attempt)
  | inl e => (Traceback e, context attempt)
  end.

End Delegation.

(** [str(v)] for a value of the session state. *)
Definition py_str (v : PyVal) : string :=
  match v with
  | VStr s => s
  | VBool true => "True"
  | VBool false => "False"
  end.

(** [HostAgent.check_state]: the value it returns under ['active_agent']. *)
Definition check_state (st : gmap string PyVal) : string :=
  if bool_decide (is_Some (st !! "context_id"))
     && bool_decide (is_Some (st !! "session_active"))
     && val_truthy (st !! "session_active")
     && bool_decide (is_Some (st !! "agent"))
  then match st !! "agent" with Some agent => py_str agent | None => "None" end
  else "None".

(** The keys of the session state that [send_message] assigns. *)
Definition assigned_keys : list string :=
  ["agent"; "session_active"; "context_id"; "task_id"].

(** What [convert_part] returns for a part that is not a file. *)
Definition plain_value (p : Part) : option Converted :=
  match p with
  | TextPart text => Some (CText text)
  | DataPart payload => Some (CData payload)
  | FilePart _ _ _ => None
  end.

Definition is_file (p : Part) : bool :=
  match p with FilePart _ _ _ => true | _ => false end.

(** The parts [send_message] converts for a task, in the order it takes
    them: those of the status message, then those of each artifact. *)
Definition task_parts (task : Task) : list Part :=
  match message (status task) with Some m => parts m | None => [] end
  ++ concat (artifact_parts <$> artifacts task).

End HostAgent.

(** ** [fastapi_host_server.py]: the management surface *)
Module HostServer.
Import A2A HostAgent.

Inductive HttpResult :=
| Http200 (message agent : string)
| Http201 (message agent : string)
| Http400 (detail : string)
| Http404 (detail : string)
| Http502 (detail : string).

(** The end of [add_agent], from the return of the card resolution on: the
    address is appended and the card registered. *)
Definition add_resolved (address : string) (c : AgentCard) (r : Registry) : Registry :=
  register_agent_card c
    {| remote_agent_connections := remote_agent_connections r;
       cards := cards r;
       remote_agent_addresses := remote_agent_addresses r ++ [address];
       agents := agents r |}.

(** [add_agent], given the outcome of the card resolution for the address.
    The whole body runs under [_agent_lock]. *)
Definition add_agent (address : string) (resolved : PyExn + AgentCard)
    (r : Registry) : Registry * HttpResult :=
  if decide (address ∈ remote_agent_addresses r) then
    (r, Http400 "Agent address already registered")
  else
    match resolved with
    | inl exc => (r, Http502 (exn_str exc))
    | inr c => (add_resolved address c r, Http201 "Agent added" (name c))
    end.

(** [remove_agent] *)
Definition remove_agent (agent_name : string) (r : Registry) : Registry * HttpResult :=
  match remove_agent_card agent_name r with
  | inl exc => (r, Http404 (exn_str exc))
  | inr r' => (r', Http200 "Agent removed" agent_name)
  end.

End HostServer.

(** ** Observation points of the directory *)
Module Directory.
Import A2A HostAgent.

(** One atomic change of the directory: what happens between two points at
    which other code can look at it.  The loop of [register_agent_cards]
    suspends at every card resolution, so each of its iterations is a change
    of its own ([Resolved]), closed by [Refresh].  [add_agent] suspends at
    its card resolution too: [ApiAdd] is the call that nothing interleaves
    with, [ApiAddResolved] its end when the task of [register_agent_cards]
    has run in between. *)
Inductive Mutation :=
| Construct (addresses : list string)
| Resolved (c : AgentCard)
| Refresh
| Register (c : AgentCard)
| Remove (agent_name : string)
| ApiAdd (address : string) (resolved : PyExn + AgentCard)
| ApiAddResolved (address : string) (c : AgentCard)
| ApiRemove (agent_name : string).

Definition apply (r : Registry) (m : Mutation) : Registry :=
  match m with
  | Construct addresses => init addresses r
  | Resolved c => store_card c r
  | Refresh => refresh_agents r
  | Register c => register_agent_card c r
  | Remove n =>
      match remove_agent_card n r with
      | inr r' => r'
      | inl _ => r
      end
  | ApiAdd address resolved => (HostServer.add_agent address resolved r).1
  | ApiAddResolved address c => HostServer.add_resolved address c r
  | ApiRemove n => (HostServer.remove_agent n r).1
  end.

(** The directory after a sequence of changes, starting from the empty
    class-level registries. *)
Definition run (ms : list Mutation) : Registry := foldl apply empty_registry ms.

(** The names whose card address is in the address list. *)
Definition names_with_address (r : Registry) : gset string :=
  dom (filter (λ kv, url kv.2 ∈ remote_agent_addresses r) (cards r)).

(** The three-way lockstep: the same names in the connections, in the cards
    and among the names whose address is registered. *)
Definition lockstep (r : Registry) : Prop :=
  dom (remote_agent_connections r) = dom (cards r)
  ∧ dom (cards r) = names_with_address r.

(** The two-way lockstep: a connection for exactly the names that have a
    card, and the connection holds that card. *)
Definition connections_match_cards (r : Registry) : Prop :=
  ∀ n, RemoteAgentConnections.card <$> (remote_agent_connections r !! n) = cards r !! n.

(** Every card is stored under its own name. *)
Definition cards_keyed_by_name (r : Registry) : Prop :=
  ∀ n c, cards r !! n = Some c → name c = n.

(** The changes whose address check, if they have one, was made on the
    directory they change: all but the end of an interleaved [add_agent]. *)
Definition checked (m : Mutation) : bool :=
  match m with ApiAddResolved _ _ => false | _ => true end.

End Directory.

(** ** The events of the decision collaborator ([google.adk]) *)
Module ADK.

(** A content part: its text and, when it carries a function response, the
    entries of [function_response.model_dump()]. *)
Record ContentPart := {
  text : option string;
  function_response : option (list (string * Json)) }.

(** [content_parts] is [event.content.parts], empty when the event has no
    content or the content has no parts. *)
Record Event := {
  is_final_response : bool;
  content_parts : list ContentPart }.

(** What [runner.run_async] yields and how it ends: exhausted ([None]) or
    with an exception; the expiry of an enclosing [asyncio.timeout] shows as
    [TimeoutError]. *)
Record Run := {
  events : list Event;
  run_failure : option PyExn }.

(** The session service and the runner behind a [stream] call. *)
Record Runner := {
  get_session : string → PyExn + option string;
  create_session : string → PyExn + string;
  run_async : string → string → Run }.

End ADK.

(** ** What the [stream] generators yield *)
Module Stream.

(** [item['content']]: a string or a dictionary. *)
Inductive Content :=
| Text (s : string)
| Structured (d : list (string * Json)).

(** [{'is_task_complete': True, 'content': ...}] or
    [{'is_task_complete': False, 'updates': ...}] *)
Inductive Item :=
| Complete (content : Content)
| Update (updates : string).

Definition is_task_complete (i : Item) : bool :=
  match i with Complete _ => true | Update _ => false end.

(** The items a generator yields before it returns ([None]) or raises. *)
Record Generated := {
  yielded : list Item;
  raised : option PyExn }.

Definition yield (i : Item) (g : Generated) : Generated :=
  {| yielded := i :: yielded g; raised := raised g |}.

Definition newline : string := String (Ascii.ascii_of_nat 10) EmptyString.

(** ['\n'.join([p.text for p in parts if p.text])] *)
Definition join_texts (ps : list ADK.ContentPart) : string :=
  String.concat newline
    (omap (λ p, match ADK.text p with
                | Some s => if str_truthy s then Some s else None
                | None => None
                end) ps).

(** A content without text and without function response: what a final
    event with empty content carries. *)
Definition no_content (ps : list ADK.ContentPart) : bool :=
  forallb (λ p, negb (opt_str_truthy (ADK.text p))
                && negb (bool_decide (is_Some (ADK.function_response p)))) ps.

(** The content of the first completed item, the one a consumer that stops
    at completion gets to see. *)
Fixpoint first_complete (items : list Item) : option Content :=
  match items with
  | [] => None
  | Complete c :: _ => Some c
  | Update _ :: items' => first_complete items'
  end.

End Stream.

(** ** [router_agent.py] *)
Module RouterAgent.
Import ADK Stream.

Definition get_processing_message : string := "Processing the reimbursement request...".

(** The value of [response] for a final event.  The second branch takes the
    function response of the first part, whichever part carries one. *)
Definition final_response (ps : list ContentPart) : PyExn + Content :=
  match ps with
  | [] => inr (Text "")
  | p0 :: _ =>
      if opt_str_truthy (text p0) then inr (Text (join_texts ps))
      else if existsb (λ p, bool_decide (is_Some (function_response p))) ps then
        match function_response p0 with
        | Some dump => inr (Structured dump)
        | None => inl (AttributeError "'NoneType' object has no attribute 'model_dump'")
        end
      else inr (Text "")
  end.

(** The [async for] loop of [stream]. *)
Fixpoint stream_events (evs : list Event) (failure : option PyExn) : Generated :=
  match evs with
  | [] => {| yielded := []; raised := failure |}
  | event :: evs' =>
      if is_final_response event then
        match final_response (content_parts event) with
        | inl e => {| yielded := []; raised := Some e |}
        | inr response => yield (Complete response) (stream_events evs' failure)
        end
      else yield (Update get_processing_message) (stream_events evs' failure)
  end.

(** [RouterAgent.stream] *)
Definition stream (runner : Runner) (query session_id : string) : Generated :=
  match get_session runner session_id with
  | inl e => {| yielded := []; raised := Some e |}
  | inr found =>
      let session :=
        match found with
        | Some sid => inr sid
        | None => create_session runner session_id
        end in
      match session with
      | inl e => {| yielded := []; raised := Some e |}
      | inr sid =>
          let run := run_async runner sid query in
          stream_events (events run) (run_failure run)
      end
  end.

End RouterAgent.

(** ** [router_agent.py]: the session service *)
Module LimitedContextGetSessionService.

(** [GetSessionConfig], as far as [get_session] looks at it. *)
Record GetSessionConfig := { num_recent_events : option Z }.

(** [LimitedContextGetSessionService.get_session]: the configuration handed
    to the parent's [get_session]. *)
Definition effective_config (max_recent_events_for_llm : Z)
    (config : option GetSessionConfig) : GetSessionConfig :=
  match config with
  | None => {| num_recent_events := Some max_recent_events_for_llm |}
  | Some c =>
      match num_recent_events c with
      | None => {| num_recent_events := Some max_recent_events_for_llm |}
      | Some n =>
          if (n >? max_recent_events_for_llm)%Z
          then {| num_recent_events := Some max_recent_events_for_llm |}
          else c
      end
  end.

End LimitedContextGetSessionService.

(** ** [agent/app/agent.py] *)
Module AgentEvolution.
Import ADK Stream.

Section Agent.

(** [os.getenv('PROCESSING_MESSAGE')] *)
Variable PROCESSING_MESSAGE : option string.

Definition get_processing_message : option string := PROCESSING_MESSAGE.

(** [self.get_processing_message() or 'Processing...'] *)
Definition processing_update : Item :=
  Update (match get_processing_message with
          | Some m => if str_truthy m then m else "Processing..."
          | None => "Processing..."
          end).

(** The value of [response] for a final event; [None] when the event has
    neither text nor a function response. *)
Definition final_response (ps : list ContentPart) : option Content :=
  if existsb (λ p, opt_str_truthy (text p)) ps then Some (Text (join_texts ps))
  else
    match omap function_response ps with
    | dump :: _ => Some (Structured dump)
    | [] => None
    end.

(** [if response:] *)
Definition content_truthy (c : Content) : bool :=
  match c with
  | Text s => str_truthy s
  | Structured d => match d with [] => false | _ => true end
  end.

(** The [try] block: the loop under [asyncio.timeout]. *)
Fixpoint stream_events (evs : list Event) (failure : option PyExn) : Generated :=
  match evs with
  | [] => {| yielded := []; raised := failure |}
  | event :: evs' =>
      if is_final_response event then
        match final_response (content_parts event) with
        | Some response =>
            if content_truthy response
            then yield (Complete response) (stream_events evs' failure)
            else yield processing_update (stream_events evs' failure)
        | None => yield processing_update (stream_events evs' failure)
        end
      else yield processing_update (stream_events evs' failure)
  end.

(** The two [except] clauses. *)
Definition handle (g : Generated) : Generated :=
  match raised g with
  | None => g
  | Some e =>
      {| yielded :=
           yielded g ++
           [Complete (Text (if is_timeout e
                            then "Agent timed out while processing request"
                            else "Agent error: " +:+ exn_str e))];
         raised := None |}
  end.

(** [AgentEvolution.stream]; the session is looked up before the [try]. *)
Definition stream (runner : Runner) (query session_id : string) : Generated :=
  match get_session runner session_id with
  | inl e => {| yielded := []; raised := Some e |}
  | inr found =>
      let session :=
        match found with
        | Some sid => inr sid
        | None => create_session runner session_id
        end in
      match session with
      | inl e => {| yielded := []; raised := Some e |}
      | inr sid =>
          let run := run_async runner sid query in
          handle (stream_events (events run) (run_failure run))
      end
  end.

End Agent.

End AgentEvolution.

(** ** [agent_executor.py] *)
Module MyAgentExecutor.
Import A2A Stream.

(** [new_agent_text_message] and [new_agent_parts_message], with the context
    and task ids they are given. *)
Inductive AgentMessage :=
| new_agent_text_message (text : string) (context_id : option string) (task_id : string)
| new_agent_parts_message (parts : list Part) (context_id : option string) (task_id : string).

(** What [execute] publishes: the new task put on the event queue and the
    calls made on the [TaskUpdater], in order. *)
Inductive Published :=
| enqueue_event (task : Task)
| update_status (state : TaskState) (message : AgentMessage) (final : bool)
| add_artifact (parts : list Part) (artifact_name : string)
| complete.

(** ['result' in x], for [x] taken from a dictionary. *)
Fixpoint str_contains (needle s : string) : bool :=
  String.prefix needle s
  || match s with
     | EmptyString => false
     | String _ s' => str_contains needle s'
     end.

Definition has_result (x : Json) : PyExn + bool :=
  match x with
  | JDict d => inr (bool_decide (is_Some (dict_get "result" d)))
  | JList l =>
      inr (existsb (λ y, match y with JStr s => bool_decide (s = "result") | _ => false end) l)
  | JStr s => inr (str_contains "result" s)
  | JNull | JBool _ | JInt _ => inl (TypeError "argument is not iterable")
  end.

(** [x['result']] *)
Definition get_result (x : Json) : PyExn + Json :=
  match x with
  | JDict d =>
      match dict_get "result" d with
      | Some v => inr v
      | None => inl (OtherError "KeyError")
      end
  | _ => inl (TypeError "indices must be integers")
  end.

(** The values the [for function_results in ...] loop runs over. *)
Definition iterate (x : Json) : PyExn + list Json :=
  match x with
  | JList l => inr l
  | JDict d => inr (JStr <$> d.*1)
  | JStr s => inr ((λ c, JStr (String c EmptyString)) <$> String.list_ascii_of_string s)
  | JNull | JBool _ | JInt _ => inl (TypeError "object is not iterable")
  end.

(** The body of that loop: one [input-required] update per element;
    [DataPart(data=...)] refuses what is not a dictionary. *)
Fixpoint publish_results (results : list Json) (task : Task)
    : list Published * option PyExn :=
  match results with
  | [] => ([], None)
  | JDict d :: rest =>
      let '(pubs, exc) := publish_results rest task in
      (update_status input_required
         (new_agent_parts_message [DataPart (JDict d)] (contextId task) (id task)) true
       :: pubs, exc)
  | _ :: _ => ([], Some (OtherError "ValidationError"))
  end.

(** A completed item whose content is a dictionary. *)
Definition publish_structured (d : list (string * Json)) (task : Task)
    : list Published * option PyExn :=
  let unexpected :=
    ([update_status failed
        (new_agent_text_message "Reaching an unexpected state" (contextId task) (id task))
        true], None) in
  match dict_get "response" d with
  | None => unexpected
  | Some response =>
      match has_result response with
      | inl e => ([], Some e)
      | inr false => unexpected
      | inr true =>
          match get_result response with
          | inl e => ([], Some e)
          | inr results =>
              match iterate results with
              | inl e => ([], Some e)
              | inr elements => publish_results elements task
              end
          end
      end
  end.

(** The [async for item in self.agent.stream(...)] loop.  After a [break] the
    generator is not resumed, so neither its later items nor the way it ends
    are seen. *)
Fixpoint consume_items (items : list Item) (ending : option PyExn) (task : Task)
    : list Published * option PyExn :=
  match items with
  | [] => ([], ending)
  | Update updates :: items' =>
      let '(pubs, exc) := consume_items items' ending task in
      (update_status working
         (new_agent_text_message updates (contextId task) (id task)) false
       :: pubs, exc)
  | Complete (Structured d) :: _ => publish_structured d task
  | Complete (Text s) :: _ => ([add_artifact [TextPart s] "form"; complete], None)
  end.

(** The request context, as far as [execute] reads it.  [RequestContext] is
    a class of the a2a library, not of this repository: [context_contextId]
    is what evaluating [context.contextId] gives, a value where the object
    has that attribute (the mock of the repository's tests is given one) and
    an [AttributeError] where it has none (the library's class calls it
    [context_id]). *)
Record RequestContext := {
  current_task : option Task;
  context_contextId : PyExn + string }.

(** The opening log line [{context.contextId if task else 'None'}], which
    stands outside any [try]: the attribute is read only when there is a
    current task. *)
Definition logged_context_id (context : RequestContext) : PyExn + string :=
  match current_task context with
  | Some _ => context_contextId context
  | None => inr "None"
  end.

(** [MyAgentExecutor.execute]: [created] is the task
    [new_task(context.message)] makes when there is no current task,
    [stream] what [self.agent.stream(query, task.contextId)] generates for a
    context id. *)
Definition execute (context : RequestContext) (created : Task)
    (stream : option string → Generated) : list Published * option PyExn :=
  match logged_context_id context with
  | inl e => ([], Some e)
  | inr _ =>
      let '(task, announced) :=
        match current_task context with
        | Some t => (t, [])
        | None => (created, [enqueue_event created])
        end in
      let generated := stream (contextId task) in
      let '(pubs, exc) := consume_items (yielded generated) (raised generated) task in
      (announced ++ pubs, exc)
  end.

End MyAgentExecutor.

(** ** Sample data *)
Module Samples.
Import A2A.

Definition alpha : AgentCard :=
  {| name := "Alpha"; description := "first agent"; url := "http://alpha.test";
     capabilities := {| streaming := Some true |} |}.

Definition alpha_connection : RemoteAgentConnections.t :=
  {| RemoteAgentConnections.card := alpha |}.

Definition task_in (st : TaskState) : Task :=
  {| id := "task-1"; contextId := Some "ctx-1";
     status := {| state := st; message := None |}; artifacts := [] |}.

Definition status_event (is_final : bool) : TaskCallbackArg :=
  ArgStatus {| su_taskId := "task-1";
               su_status := {| state := working; message := None |};
               final := is_final |}.

Definition request : MessageSendParams :=
  {| request_id := "req-1";
     request_message :=
       {| role := "user"; parts := [TextPart "hello"]; messageId := "msg-1";
          msg_contextId := None; msg_taskId := None |};
     configuration := None |}.

(** A client that answers a unary call with a task in state [st] and a
    streamed call with the given events. *)
Definition client (st : TaskState) (events : list TaskCallbackArg) : A2AClient :=
  {| send_message := λ _, UnaryTask (task_in st);
     send_message_streaming := λ _,
       {| responses := StreamEvent <$> events; stream_failure := None |} |}.

(** An observer that counts its calls and hands back a task carrying the
    state of the event it saw. *)
Definition counting_callback : RemoteAgentConnections.TaskUpdateCallback nat :=
  λ n event _,
    (Some (task_in (match event with
                    | ArgStatus u => state (su_status u)
                    | _ => unknown
                    end)), S n).

Definition registry : HostAgent.Registry :=
  HostAgent.register_agent_card alpha HostAgent.empty_registry.

Definition tool_context : HostAgent.ToolContext :=
  {| HostAgent.state := ∅;
     HostAgent.actions :=
       {| HostAgent.skip_summarization := false; HostAgent.escalate := false |};
     HostAgent.artifact_store := [] |}.

Definition b64decode (s : string) : PyExn + string := inr s.

Definition save_artifact (store : HostAgent.ArtifactStore) (file_id : option string)
    (b : HostAgent.Blob) : PyExn + HostAgent.ArtifactStore :=
  inr (store ++ [(file_id, b)]).

Definition uuid4 (n : nat) : string :=
  match n with O => "uuid-0" | _ => "uuid-1" end.

Definition history (n : nat) : list nat := seq 1 n.

(** A runner with an existing session whose run is given. *)
Definition runner (run : ADK.Run) : ADK.Runner :=
  {| ADK.get_session := λ sid, inr (Some sid);
     ADK.create_session := λ sid, inr sid;
     ADK.run_async := λ _ _, run |}.

Definition empty_final_event : ADK.Event :=
  {| ADK.is_final_response := true; ADK.content_parts := [] |}.

Definition progress_event : ADK.Event :=
  {| ADK.is_final_response := false; ADK.content_parts := [] |}.

Definition beta : AgentCard :=
  {| name := "Beta"; description := "second agent"; url := "http://beta.test";
     capabilities := {| streaming := None |} |}.

Definition beta_connection : RemoteAgentConnections.t :=
  {| RemoteAgentConnections.card := beta |}.

Definition reply : Message :=
  {| role := "agent"; parts := [TextPart "Direct response"]; messageId := "msg-2";
     msg_contextId := None; msg_taskId := None |}.

(** A client whose unary and streamed answers are given. *)
Definition client_with (unary : UnaryReply) (stream : Stream) : A2AClient :=
  {| send_message := λ _, unary; send_message_streaming := λ _, stream |}.

Definition text_part (s : string) : ADK.ContentPart :=
  {| ADK.text := Some s; ADK.function_response := None |}.

Definition blank_part : ADK.ContentPart :=
  {| ADK.text := None; ADK.function_response := None |}.

Definition call_part (dump : list (string * Json)) : ADK.ContentPart :=
  {| ADK.text := None; ADK.function_response := Some dump |}.

Definition final_event (ps : list ADK.ContentPart) : ADK.Event :=
  {| ADK.is_final_response := true; ADK.content_parts := ps |}.

(** A completed task with a status message and two artifacts. *)
Definition answered_task : Task :=
  {| id := "task-2"; contextId := Some "ctx-2";
     status := {| state := completed;
                  message := Some {| role := "agent"; parts := [TextPart "Done."];
                                     messageId := "msg-3"; msg_contextId := None;
                                     msg_taskId := None |} |};
     artifacts :=
       [{| artifact_name := None; artifact_parts := [TextPart "Sunny"] |};
        {| artifact_name := Some "details";
           artifact_parts := [DataPart (JDict [("city", JStr "Paris")])] |}] |}.

(** The exchange a unary call ends with when no callback is given. *)
Definition unary_outcome (result : PyExn + RemoteAgentConnections.SendResult)
    : RemoteAgentConnections.Outcome unit :=
  {| RemoteAgentConnections.returned := result;
     RemoteAgentConnections.transport := RemoteAgentConnections.Unary;
     RemoteAgentConnections.consumed := 0%nat;
     RemoteAgentConnections.observer := () |}.

(** A delegation to "Alpha" with the sample collaborators, for a client
    whose unary answer is given. *)
Definition delegate (unary : UnaryReply) : HostAgent.ToolResult * HostAgent.ToolContext :=
  HostAgent.send_message b64decode save_artifact uuid4
    (λ _, client_with unary {| responses := []; stream_failure := None |})
    registry (St := unit) None "Alpha" "hello" tool_context ().


(** A task event that is not final and reports the given state. *)
Definition state_event (st : TaskState) : TaskCallbackArg :=
  ArgStatus {| su_taskId := "task-1";
               su_status := {| state := st; message := None |};
               final := false |}.

End Samples.

(* ===================================================================== *)
(** * Part II: properties                                                 *)
(* ===================================================================== *)

(** ** The agent directory *)
Section DirectoryFacts.
Import A2A HostAgent Directory.

(** Both maps are written under the same key: compare the key looked up
    with the key written. *)
Ltac same_key k n H :=
  destruct (decide (k = n)) as [->|?];
  [ by rewrite ?lookup_insert_eq, ?lookup_delete_eq
  | rewrite ?lookup_insert_ne, ?lookup_delete_ne by done; apply H ].

Lemma store_card_match c r :
  connections_match_cards r → connections_match_cards (store_card c r).
Proof. intros Hr n. simpl. same_key (name c) n Hr. Qed.

Lemma remove_agent_card_match n r r' :
  remove_agent_card n r = inr r' →
  connections_match_cards r → connections_match_cards r'.
Proof.
  unfold remove_agent_card.
  destruct (remote_agent_connections r !! n) eqn:E; [|done].
  intros [= <-] Hr k. simpl. same_key n k Hr.
Qed.

Lemma add_resolved_match address c r :
  connections_match_cards r → connections_match_cards (HostServer.add_resolved address c r).
Proof. intros Hr n. simpl. same_key (name c) n Hr. Qed.

Lemma apply_match r m :
  connections_match_cards r → connections_match_cards (apply r m).
Proof.
  intros Hr. destruct m; simpl.
  - exact Hr.
  - by apply store_card_match.
  - exact Hr.
  - by apply (store_card_match c r).
  - destruct (remove_agent_card agent_name r) eqn:E; [done|].
    by eapply remove_agent_card_match.
  - unfold HostServer.add_agent. case_decide; [done|].
    destruct resolved as [e|c]; [done|]. by apply add_resolved_match.
  - by apply add_resolved_match.
  - unfold HostServer.remove_agent.
    destruct (remove_agent_card agent_name r) eqn:E; [done|].
    by eapply remove_agent_card_match.
Qed.

Lemma match_dom r :
  connections_match_cards r → dom (remote_agent_connections r) = dom (cards r).
Proof.
  intros Hr. apply set_eq. intros n.
  rewrite !elem_of_dom, <- (Hr n), fmap_is_Some. done.
Qed.

(** The whole [register_agent_cards] task is a run of [Resolved] changes,
    closed by [Refresh] when no resolution failed. *)
Lemma register_agent_cards_loop_apply resolve addrs r :
  ∃ cs, (register_agent_cards_loop resolve addrs r).1 = foldl apply r (Resolved <$> cs).
Proof.
  revert r. induction addrs as [|a addrs IH]; intros r; simpl.
  - by exists [].
  - destruct (resolve a) as [e|c]; simpl.
    + by exists [].
    + destruct (IH (store_card c r)) as [cs Hcs]. exists (c :: cs). by rewrite Hcs.
Qed.

(** C1 (as stated, refuted): after [register_agent_card] on the empty
    directory the card is stored, and so is its connection, but its address is
    not in the address list: the three collections are not in lockstep at
    every observation point. *)
Lemma directory_lockstep_fails :
  ¬ (∀ ms, lockstep (run ms)).
Proof.
  intros H. destruct (H [Register Samples.alpha]) as [_ H2].
  assert (Hin : "Alpha" ∈ dom (cards (run [Register Samples.alpha]))).
  { apply elem_of_dom. exists Samples.alpha. reflexivity. }
  rewrite H2 in Hin. unfold names_with_address in Hin.
  apply elem_of_dom in Hin as [c Hc].
  apply map_lookup_filter_Some in Hc as [_ Hc]. simpl in Hc.
  by apply elem_of_nil in Hc.
Qed.

(** C1 (amended): after every sequence of directory changes (construction
    with initial addresses, each iteration of [register_agent_cards],
    [register_agent_card], [remove_agent_card], and the [add_agent] and
    [remove_agent] of the management surface), the names in the connections
    map are the names in the cards map, and each connection holds the card
    stored under its name. *)
Theorem directory_connections_match_cards (ms : list Directory.Mutation) :
  dom (remote_agent_connections (run ms)) = dom (cards (run ms))
  ∧ connections_match_cards (run ms).
Proof.
  assert (H : connections_match_cards (run ms)).
  { unfold run. induction ms as [|m ms IH] using rev_ind.
    - intros n. simpl. by rewrite !lookup_empty.
    - rewrite foldl_app. simpl. by apply apply_match. }
  split; [by apply match_dom | done].
Qed.

End DirectoryFacts.

(** ** History trimming *)
Section HistoryFacts.
Import HostAgent.

Context {A : Type}.

(** An even number of entries is left alone. *)
Lemma before_model_callback_even (contents : list A) (k : nat) :
  length contents = (2 * k)%nat → before_model_callback contents = contents.
Proof.
  intros Hlen. unfold before_model_callback. rewrite Hlen.
  destruct (Z.of_nat (2 * k) =? 0)%Z; [done|].
  replace (Z.of_nat (2 * k) `mod` 2)%Z with 0%Z; [done|].
  rewrite Nat2Z.inj_mul, Z.mul_comm. symmetry. apply Z_mod_mult.
Qed.

(** An odd number of entries, [2k+1], keeps the last [2 * min 3 k + 1]: the
    entries of the last three turns and the entry that follows them. *)
Lemma before_model_callback_odd (contents : list A) (k : nat) :
  length contents = (2 * k + 1)%nat →
  before_model_callback contents = drop (2 * (k - 3)) contents.
Proof.
  intros Hlen. unfold before_model_callback, HISTORY_LENGTH. rewrite Hlen.
  replace (Z.of_nat (2 * k + 1) =? 0)%Z with false by (symmetry; apply Z.eqb_neq; lia).
  replace (Z.of_nat (2 * k + 1) `mod` 2)%Z with 1%Z.
  2:{ apply (Zmod_unique _ _ (Z.of_nat k)); lia. }
  simpl (1 =? 0)%Z. cbv iota.
  replace ((Z.of_nat (2 * k + 1) - 1) `div` 2)%Z with (Z.of_nat k).
  2:{ apply (Zdiv_unique _ _ _ 0); lia. }
  destruct (Z.gtb_spec ((Z.of_nat k - Z.min 3 (Z.of_nat k)) * 2) 0) as [Hgt|Hle].
  - f_equal. lia.
  - replace (2 * (k - 3))%nat with 0%nat by lia. done.
Qed.

(** C3 (as stated, refuted): seven entries are three turns and the current
    entry; with the cap of three turns all seven are kept, not the last six. *)
Lemma history_of_seven_is_not_cut_to_six :
  length (Samples.history 7) = 7%nat
  ∧ before_model_callback (Samples.history 7) ≠ drop 1 (Samples.history 7)
  ∧ length (before_model_callback (Samples.history 7)) ≠ 6%nat.
Proof. split; [reflexivity|]. split; vm_compute; discriminate. Qed.

(** C3 (amended): with the cap of three turns, exactly 7 history entries are
    all kept (no trimming), and exactly 8 entries (even) are all kept. *)
Theorem history_trimming_seven_and_eight (contents : list A) :
  length contents = 7%nat ∨ length contents = 8%nat →
  before_model_callback contents = contents.
Proof.
  intros [H|H].
  - by rewrite (before_model_callback_odd contents 3).
  - by apply (before_model_callback_even contents 4).
Qed.

(** Trimming starts at nine entries, of which the last seven are kept. *)
Lemma history_trimming_nine (contents : list A) :
  length contents = 9%nat →
  before_model_callback contents = drop 2 contents
  ∧ length (before_model_callback contents) = 7%nat.
Proof.
  intros H. rewrite (before_model_callback_odd contents 4) by done.
  split; [done|]. rewrite length_drop. simpl. lia.
Qed.

End HistoryFacts.

(** The histories 1..7 come back whole. *)
Lemma history_trimming_seven_and_eight_witness :
  HostAgent.before_model_callback (Samples.history 7) = Samples.history 7.
Proof.
  apply (history_trimming_seven_and_eight (Samples.history 7)).
  left. reflexivity.
Defined.

(** ** The streamed exchange *)
Section ConnectionFacts.
Import A2A RemoteAgentConnections.

Context {St : Type}.
Implicit Types (self : RemoteAgentConnections.t) (cb : option (TaskUpdateCallback St)).

Lemma observe_snoc (f : TaskUpdateCallback St) c events event task s :
  observe f c (events ++ [event]) task s
  = f (observe f c events task s).2 event c.
Proof.
  revert task s. induction events as [|e events IH]; intros task s; simpl.
  - by destruct (f s event c).
  - destruct (f s e c) as [task' s']. apply IH.
Qed.

(** Events that are not flagged final are passed over one by one. *)
Lemma consume_non_final self cb events rest failure task n s :
  Forall (λ e, final_flag e = false) events →
  consume self cb ((StreamEvent <$> events) ++ rest) failure task n s
  = consume self cb rest failure
      (observed cb (card self) events task s).1 (n + length events)
      (observed cb (card self) events task s).2.
Proof.
  intros Hnf. revert task n s.
  induction Hnf as [|e events He _ IH]; intros task n s.
  - simpl. rewrite Nat.add_0_r. by destruct cb.
  - simpl. rewrite He.
    destruct cb as [f|]; simpl.
    + destruct (f s e (card self)) as [task' s'] eqn:Ef.
      rewrite IH. simpl. by rewrite Nat.add_succ_r.
    + rewrite IH. simpl. by rewrite Nat.add_succ_r.
Qed.

(** A stream of task events that ends, or that holds a final event: the loop
    takes the events up to the first final one and returns what the observer
    made of them. *)
Lemma consume_events self cb events rest failure task n s :
  (rest = [] ∧ failure = None) ∨ Exists (λ e, final_flag e = true) events →
  consume self cb ((StreamEvent <$> events) ++ rest) failure task n s
  = {| returned := inr (return_task (observed cb (card self) (taken events) task s).1);
       transport := Streamed;
       consumed := n + length (taken events);
       observer := (observed cb (card self) (taken events) task s).2 |}.
Proof.
  revert task n s. induction events as [|e events IH]; intros task n s Hend.
  - destruct Hend as [[-> ->]|Hex]; [|by apply Exists_nil in Hex].
    simpl. rewrite Nat.add_0_r. by destruct cb.
  - assert (Htail : final_flag e = false →
              (rest = [] ∧ failure = None) ∨ Exists (λ e, final_flag e = true) events).
    { intros He. destruct Hend as [?|Hex]; [by left|right].
      apply Exists_cons in Hex as [Hex|Hex]; [congruence|done]. }
    simpl. destruct cb as [f|]; simpl.
    + destruct (f s e (card self)) as [task' s'] eqn:Ef.
      destruct (final_flag e); simpl.
      * by rewrite Nat.add_1_r.
      * rewrite IH by auto. simpl. by rewrite Nat.add_succ_r.
    + destruct (final_flag e); simpl.
      * by rewrite Nat.add_1_r.
      * rewrite IH by auto. simpl. by rewrite Nat.add_succ_r.
Qed.

(** C4 (amended): when the remote emits N task events that are not final and
    then one flagged final, the streamed send returns (it does not raise),
    having taken exactly N+1 responses; the value returned is the result of
    the task-observer callback on the final event when a callback is
    supplied, and [None] when none is. *)
Theorem streamed_send_returns_after_final_event self (client : A2AClient)
    (request : MessageSendParams) cb
    (events : list TaskCallbackArg) (last : TaskCallbackArg)
    (rest : list StreamingResponse) (s : St) :
  declares_streaming (card self) = true →
  responses (A2A.send_message_streaming client request)
    = (StreamEvent <$> events) ++ StreamEvent last :: rest →
  Forall (λ e, final_flag e = false) events →
  final_flag last = true →
  let sent := send_message self client request cb true s in
  transport sent = Streamed
  ∧ consumed sent = S (length events)
  ∧ returned sent =
      inr (match cb with
           | Some f =>
               return_task (f (observe f (card self) events None s).2 last (card self)).1
           | None => RNone
           end).
Proof.
  intros Hs Hr Hnf Hlast. unfold send_message. rewrite Hs, Hr. simpl.
  rewrite consume_non_final by done. simpl. rewrite Hlast.
  destruct cb as [f|]; simpl.
  - destruct (f _ last (card self)) as [task' s'] eqn:Ef. simpl. done.
  - done.
Qed.

(** C10 (amended): when only task events are received on a streamed exchange
    that ends without a failure of the stream (the stream is exhausted after
    them, or one of them is flagged final), the send returns, and the value
    returned is what the callback returned on the last event taken, not that
    event; with no callback it is [None], whatever events were taken. *)
Theorem streamed_send_returns_callback_result self (client : A2AClient)
    (request : MessageSendParams) cb (events : list TaskCallbackArg)
    (rest : list StreamingResponse) (s : St) :
  declares_streaming (card self) = true →
  responses (A2A.send_message_streaming client request)
    = (StreamEvent <$> events) ++ rest →
  (rest = [] ∧ stream_failure (A2A.send_message_streaming client request) = None)
  ∨ Exists (λ e, final_flag e = true) events →
  let sent := send_message self client request cb true s in
  consumed sent = length (taken events)
  ∧ returned sent
      = inr (return_task (observed cb (card self) (taken events) None s).1)
  ∧ (cb = None → returned sent = inr RNone).
Proof.
  intros Hs Hr Hend. unfold send_message. rewrite Hs, Hr. simpl.
  rewrite consume_events by done. simpl. split; [done|]. split; [done|].
  by intros ->.
Qed.

End ConnectionFacts.

(** C4 (as stated, refuted): the remote emits one final-flagged task event and
    the caller supplies no callback; the send takes that event and returns
    [None], not a task snapshot. *)
Lemma streamed_send_without_callback_returns_no_task :
  let sent :=
    RemoteAgentConnections.send_message (St := unit) Samples.alpha_connection
      (Samples.client A2A.working [Samples.status_event true])
      Samples.request None true () in
  RemoteAgentConnections.consumed sent = 1%nat
  ∧ ¬ ∃ task,
      RemoteAgentConnections.returned sent = inr (RemoteAgentConnections.RTask task).
Proof.
  split; [reflexivity|]. intros [task H]. vm_compute in H. discriminate.
Qed.

(** Two progress events and a final one, with the counting observer: three
    responses taken, the task of the third call returned. *)
Lemma streamed_send_returns_after_final_event_witness :
  let sent :=
    RemoteAgentConnections.send_message Samples.alpha_connection
      (Samples.client A2A.working
         [Samples.status_event false; Samples.status_event false; Samples.status_event true])
      Samples.request (Some Samples.counting_callback) true 0%nat in
  RemoteAgentConnections.transport sent = RemoteAgentConnections.Streamed
  ∧ RemoteAgentConnections.consumed sent = 3%nat
  ∧ RemoteAgentConnections.returned sent
    = inr (RemoteAgentConnections.RTask (Samples.task_in A2A.working)).
Proof.
  apply (streamed_send_returns_after_final_event Samples.alpha_connection
           (Samples.client A2A.working
              [Samples.status_event false; Samples.status_event false;
               Samples.status_event true])
           Samples.request (Some Samples.counting_callback)
           [Samples.status_event false; Samples.status_event false]
           (Samples.status_event true) [] 0%nat).
  - reflexivity.
  - reflexivity.
  - repeat constructor.
  - reflexivity.
Defined.

(** C10 (as stated, refuted): only a task event is received and no callback
    is supplied, but the stream then breaks off with an exception; the send
    raises that exception, it does not return [None]. *)
Lemma streamed_send_raises_when_the_stream_breaks_off :
  let sent :=
    RemoteAgentConnections.send_message (St := unit) Samples.alpha_connection
      (Samples.client_with (A2A.UnaryMessage Samples.reply)
         {| A2A.responses := [A2A.StreamEvent (Samples.status_event false)];
            A2A.stream_failure := Some (OtherError "connection reset") |})
      Samples.request None true () in
  RemoteAgentConnections.consumed sent = 1%nat
  ∧ RemoteAgentConnections.returned sent = inl (OtherError "connection reset")
  ∧ RemoteAgentConnections.returned sent ≠ inr RemoteAgentConnections.RNone.
Proof. split; [reflexivity|]. split; [reflexivity|discriminate]. Qed.

(** Two events that report "submitted" and then "working", then the end of
    the stream.  With the counting observer the task of its second call comes
    back, not the task of its first; with no observer [None] comes back. *)
Lemma streamed_send_returns_callback_result_witness :
  let events := [Samples.state_event A2A.submitted; Samples.state_event A2A.working] in
  (let sent :=
     RemoteAgentConnections.send_message Samples.alpha_connection
       (Samples.client A2A.completed events)
       Samples.request (Some Samples.counting_callback) true 0%nat in
   RemoteAgentConnections.consumed sent = 2%nat
   ∧ RemoteAgentConnections.returned sent
     = inr (RemoteAgentConnections.RTask (Samples.task_in A2A.working))
   ∧ (Some Samples.counting_callback = None
      → RemoteAgentConnections.returned sent = inr RemoteAgentConnections.RNone))
  ∧ (let sent :=
       RemoteAgentConnections.send_message (St := unit) Samples.alpha_connection
         (Samples.client A2A.completed events) Samples.request None true () in
     RemoteAgentConnections.consumed sent = 2%nat
     ∧ RemoteAgentConnections.returned sent = inr RemoteAgentConnections.RNone
     ∧ (@None (RemoteAgentConnections.TaskUpdateCallback unit) = None
        → RemoteAgentConnections.returned sent = inr RemoteAgentConnections.RNone)).
Proof.
  intros events. split.
  - apply (streamed_send_returns_callback_result Samples.alpha_connection
             (Samples.client A2A.completed events)
             Samples.request (Some Samples.counting_callback) events [] 0%nat).
    + reflexivity.
    + reflexivity.
    + left. split; reflexivity.
  - apply (streamed_send_returns_callback_result (St := unit) Samples.alpha_connection
             (Samples.client A2A.completed events) Samples.request None events [] ()).
    + reflexivity.
    + reflexivity.
    + left. split; reflexivity.
Defined.

(** ** Delegation *)
Section DelegationFacts.
Import A2A HostAgent.

Variable b64decode : string → PyExn + string.
Variable save_artifact : ArtifactStore → option string → Blob → PyExn + ArtifactStore.
Variable uuid4 : nat → string.
Variable network : AgentCard → A2AClient.
Context {St : Type}.

Local Abbreviation send_message_try := (HostAgent.send_message_try b64decode save_artifact uuid4 network).
Local Abbreviation send_message := (HostAgent.send_message b64decode save_artifact uuid4 network).
Local Abbreviation convert_part := (HostAgent.convert_part b64decode save_artifact).
Local Abbreviation convert_parts := (HostAgent.convert_parts b64decode save_artifact).
Local Abbreviation convert_artifacts := (HostAgent.convert_artifacts b64decode save_artifact).
Local Abbreviation collect_response := (HostAgent.collect_response b64decode save_artifact).
Local Abbreviation apply_task_policy := (HostAgent.apply_task_policy b64decode save_artifact).

Lemma keeps_refl tc : keeps tc tc.
Proof. by split. Qed.

Lemma keeps_trans tc1 tc2 tc3 : keeps tc1 tc2 → keeps tc2 tc3 → keeps tc1 tc3.
Proof. intros [H1 H2] [H3 H4]. split; [congruence | auto]. Qed.

Lemma convert_part_keeps p tc : keeps tc (convert_part p tc).1.
Proof.
  destruct p as [text|payload|file_id mime [b64|]]; simpl; try apply keeps_refl.
  destruct (b64decode b64) as [e|file_bytes]; simpl; [apply keeps_refl|].
  destruct (save_artifact _ _ _) as [e|store']; simpl; [apply keeps_refl|].
  by split.
Qed.

Lemma convert_parts_keeps ps tc : keeps tc (convert_parts ps tc).1.
Proof.
  revert tc. induction ps as [|p ps IH]; intros tc; simpl; [apply keeps_refl|].
  pose proof (convert_part_keeps p tc) as Hp.
  destruct (convert_part p tc) as [tc1 [e|v]]; simpl in *; [done|].
  pose proof (IH tc1) as Hps.
  destruct (convert_parts ps tc1) as [tc2 [e|vs]]; simpl in *;
    by eapply keeps_trans.
Qed.

Lemma convert_artifacts_keeps arts tc : keeps tc (convert_artifacts arts tc).1.
Proof.
  revert tc. induction arts as [|a arts IH]; intros tc; simpl; [apply keeps_refl|].
  pose proof (convert_parts_keeps (artifact_parts a) tc) as Hp.
  destruct (convert_parts (artifact_parts a) tc) as [tc1 [e|v]]; simpl in *; [done|].
  pose proof (IH tc1) as Hps.
  destruct (convert_artifacts arts tc1) as [tc2 [e|vs]]; simpl in *;
    by eapply keeps_trans.
Qed.

Lemma collect_response_keeps task tc : keeps tc (collect_response task tc).1.
Proof.
  unfold HostAgent.collect_response.
  destruct (message (status task)) as [m|].
  - pose proof (convert_parts_keeps (parts m) tc) as Hm.
    destruct (convert_parts (parts m) tc) as [tc1 [e|vs]]; simpl in *; [done|].
    pose proof (convert_artifacts_keeps (artifacts task) tc1) as Ha.
    destruct (convert_artifacts (artifacts task) tc1) as [tc2 [e|ws]]; simpl in *;
      by eapply keeps_trans.
  - pose proof (convert_artifacts_keeps (artifacts task) tc) as Ha.
    by destruct (convert_artifacts (artifacts task) tc) as [tc2 [e|ws]].
Qed.

(** A delegation that got a task back went through the task policy, on the
    tool context bound to the agent. *)
Lemma send_message_try_task self cb agent_name message tc (s : St) sent task :
  exchange (send_message_try self cb agent_name message tc s) = Some sent →
  RemoteAgentConnections.returned sent = inr (RemoteAgentConnections.RTask task) →
  let attempt := send_message_try self cb agent_name message tc s in
  (context attempt, outcome attempt)
  = apply_task_policy agent_name task (set_state "agent" (VStr agent_name) tc).
Proof.
  unfold HostAgent.send_message_try.
  destruct (remote_agent_connections self !! agent_name) as [client|]; [|done].
  match goal with
  | |- context [match ?r with inl _ => _ | inr _ => _ end] => destruct r as [e|request]
  end; [done|].
  match goal with
  | |- context [RemoteAgentConnections.send_message ?a ?b ?c ?d ?e ?f] =>
      generalize (RemoteAgentConnections.send_message a b c d e f)
  end.
  intros sent0.
  destruct (RemoteAgentConnections.returned sent0) as [e|[tk|m|err|]] eqn:Er;
    try (intros [= <-] H; simpl; congruence);
    try (destruct (apply_task_policy _ _ _) eqn:Ep; intros [= <-] H; simpl; congruence).
  destruct (convert_parts _ _); intros [= <-] H; congruence.
Qed.

(** Whatever the agent and the state, the exchange of a delegation is the
    unary call. *)
Lemma delegation_is_unary self cb agent_name message tc (s : St) sent :
  exchange (send_message_try self cb agent_name message tc s) = Some sent →
  RemoteAgentConnections.transport sent = RemoteAgentConnections.Unary
  ∧ RemoteAgentConnections.consumed sent = 0%nat.
Proof.
  unfold HostAgent.send_message_try.
  destruct (remote_agent_connections self !! agent_name) as [client|]; [|done].
  match goal with
  | |- context [match ?r with inl _ => _ | inr _ => _ end] => destruct r as [e|request]
  end; [done|].
  match goal with
  | |- context [RemoteAgentConnections.send_message ?a ?b ?c ?d ?e ?f] =>
      assert (Hu : RemoteAgentConnections.transport
                     (RemoteAgentConnections.send_message a b c d e f)
                   = RemoteAgentConnections.Unary
                   ∧ RemoteAgentConnections.consumed
                       (RemoteAgentConnections.send_message a b c d e f) = 0%nat);
      [|generalize dependent (RemoteAgentConnections.send_message a b c d e f)]
  end.
  { unfold RemoteAgentConnections.send_message. simpl.
    by destruct (A2A.send_message _ _). }
  intros sent0 Hu.
  destruct (RemoteAgentConnections.returned sent0) as [e|[tk|m|err|]];
    try (destruct (apply_task_policy _ _ _)); try (destruct (convert_parts _ _));
    by intros [= <-].
Qed.

Lemma apply_task_policy_failed agent_name task tc :
  A2A.state (status task) = failed →
  let '(tc', result) := apply_task_policy agent_name task tc in
  result = inl (ValueError ("Agent " +:+ agent_name +:+ " task " +:+ id task +:+ " failed"))
  ∧ state tc' !! "task_id" = Some (VStr (id task))
  ∧ (∀ c, contextId task = Some c → str_truthy c = true →
       state tc' !! "context_id" = Some (VStr c))
  ∧ state tc' !! "session_active" = Some (VBool false).
Proof.
  intros Hst. unfold HostAgent.apply_task_policy. rewrite Hst. simpl.
  split; [done|]. split; [by rewrite lookup_insert_eq|]. split.
  - intros c -> ->. simpl. rewrite lookup_insert_ne by done. by rewrite lookup_insert_eq.
  - rewrite lookup_insert_ne by done.
    destruct (contextId task) as [c|]; [destruct (str_truthy c)|]; simpl;
      rewrite ?(lookup_insert_ne _ "context_id") by done; by rewrite lookup_insert_eq.
Qed.

Lemma apply_task_policy_input_required agent_name task tc :
  A2A.state (status task) = input_required →
  let '(tc', _) := apply_task_policy agent_name task tc in
  escalated tc' ∧ state tc' !! "session_active" = Some (VBool true).
Proof.
  intros Hst. unfold HostAgent.apply_task_policy. rewrite Hst. simpl.
  match goal with
  | |- context [collect_response task ?t] =>
      pose proof (collect_response_keeps task t) as [Hs He];
      destruct (collect_response task t) as [tc' result]
  end.
  simpl in *. split; [by apply He|]. rewrite Hs. simpl.
  rewrite lookup_insert_ne by done.
  destruct (contextId task) as [c|]; [destruct (str_truthy c)|]; simpl;
    rewrite ?(lookup_insert_ne _ "context_id") by done; by rewrite lookup_insert_eq.
Qed.

(** C5: a delegation whose returned task is in the failed state raises the
    failure error (a [ValueError] naming the agent and the task, which the
    boundary of [send_message] turns into the traceback text it returns); at
    the raise the session state already holds the task id, the context id if
    the task carries one, and an inactive session. *)
Theorem failed_task_raises_after_state_update (self : Registry)
    (cb : option (RemoteAgentConnections.TaskUpdateCallback St))
    (agent_name message : string) (tc : ToolContext) (s : St)
    (sent : RemoteAgentConnections.Outcome St) (task : Task) :
  exchange (send_message_try self cb agent_name message tc s) = Some sent →
  RemoteAgentConnections.returned sent = inr (RemoteAgentConnections.RTask task) →
  A2A.state (status task) = failed →
  let attempt := send_message_try self cb agent_name message tc s in
  let error := ValueError ("Agent " +:+ agent_name +:+ " task " +:+ id task +:+ " failed") in
  outcome attempt = inl error
  ∧ state (context attempt) !! "task_id" = Some (VStr (id task))
  ∧ (∀ c, contextId task = Some c → str_truthy c = true →
       state (context attempt) !! "context_id" = Some (VStr c))
  ∧ state (context attempt) !! "session_active" = Some (VBool false)
  ∧ send_message self cb agent_name message tc s = (Traceback error, context attempt).
Proof.
  intros Hex Hret Hst attempt error.
  pose proof (send_message_try_task _ _ _ _ _ _ _ _ Hex Hret) as Htask.
  pose proof (apply_task_policy_failed agent_name task
                (set_state "agent" (VStr agent_name) tc) Hst) as Hpol.
  simpl in Htask. fold attempt in Htask. rewrite <- Htask in Hpol.
  destruct Hpol as (Hout & Hid & Hctx & Hact).
  repeat split; try done.
  unfold HostAgent.send_message. fold attempt. by rewrite Hout.
Qed.

(** C6: a delegation whose returned task is in the input-required state
    leaves the tool context flagged for escalation (summarization skipped,
    escalate set) and the session state with [session_active] true, whatever
    the conversion of the task's parts does afterwards. *)
Theorem input_required_task_escalates (self : Registry)
    (cb : option (RemoteAgentConnections.TaskUpdateCallback St))
    (agent_name message : string) (tc : ToolContext) (s : St)
    (sent : RemoteAgentConnections.Outcome St) (task : Task) :
  exchange (send_message_try self cb agent_name message tc s) = Some sent →
  RemoteAgentConnections.returned sent = inr (RemoteAgentConnections.RTask task) →
  A2A.state (status task) = input_required →
  let after := (send_message self cb agent_name message tc s).2 in
  skip_summarization (actions after) = true
  ∧ escalate (actions after) = true
  ∧ state after !! "session_active" = Some (VBool true).
Proof.
  intros Hex Hret Hst after.
  pose proof (send_message_try_task _ _ _ _ _ _ _ _ Hex Hret) as Htask.
  pose proof (apply_task_policy_input_required agent_name task
                (set_state "agent" (VStr agent_name) tc) Hst) as Hpol.
  simpl in Htask. rewrite <- Htask in Hpol. destruct Hpol as [Hesc Hact].
  assert (Ha : after = context (send_message_try self cb agent_name message tc s)).
  { unfold after, HostAgent.send_message. by destruct (outcome _). }
  rewrite Ha. unfold escalated in Hesc. rewrite Hesc. done.
Qed.

End DelegationFacts.

(** C2 (the code at the failing input): the agent "Alpha" declares streaming
    support, and the delegation to it still goes through the unary call; no
    response is taken from the stream its client offers. *)
Lemma delegation_to_streaming_agent_is_unary :
  let attempt :=
    HostAgent.send_message_try Samples.b64decode Samples.save_artifact Samples.uuid4
      (λ _, Samples.client A2A.completed [Samples.status_event true])
      Samples.registry (St := unit) None "Alpha" "hello" Samples.tool_context () in
  A2A.declares_streaming Samples.alpha = true
  ∧ HostAgent.remote_agent_connections Samples.registry !! "Alpha"
    = Some Samples.alpha_connection
  ∧ RemoteAgentConnections.transport <$> HostAgent.exchange attempt
    = Some RemoteAgentConnections.Unary
  ∧ RemoteAgentConnections.consumed <$> HostAgent.exchange attempt = Some 0%nat.
Proof. vm_compute. repeat split; reflexivity. Qed.

(** A delegation to "Alpha" whose client answers with a failed task. *)
Lemma failed_task_raises_after_state_update_witness :
  let attempt :=
    HostAgent.send_message_try Samples.b64decode Samples.save_artifact Samples.uuid4
      (λ _, Samples.client A2A.failed [])
      Samples.registry (St := unit) None "Alpha" "hello" Samples.tool_context () in
  let error := ValueError "Agent Alpha task task-1 failed" in
  HostAgent.outcome attempt = inl error
  ∧ HostAgent.state (HostAgent.context attempt) !! "task_id" = Some (HostAgent.VStr "task-1")
  ∧ (∀ c, Some "ctx-1" = Some c → str_truthy c = true →
       HostAgent.state (HostAgent.context attempt) !! "context_id" = Some (HostAgent.VStr c))
  ∧ HostAgent.state (HostAgent.context attempt) !! "session_active"
    = Some (HostAgent.VBool false)
  ∧ HostAgent.send_message Samples.b64decode Samples.save_artifact Samples.uuid4
      (λ _, Samples.client A2A.failed [])
      Samples.registry (St := unit) None "Alpha" "hello" Samples.tool_context ()
    = (HostAgent.Traceback error, HostAgent.context attempt).
Proof.
  apply (failed_task_raises_after_state_update
           Samples.b64decode Samples.save_artifact Samples.uuid4
           (λ _, Samples.client A2A.failed [])
           Samples.registry None "Alpha" "hello" Samples.tool_context ()
           {| RemoteAgentConnections.returned :=
                inr (RemoteAgentConnections.RTask (Samples.task_in A2A.failed));
              RemoteAgentConnections.transport := RemoteAgentConnections.Unary;
              RemoteAgentConnections.consumed := 0%nat;
              RemoteAgentConnections.observer := () |}
           (Samples.task_in A2A.failed)).
  - reflexivity.
  - reflexivity.
  - reflexivity.
Defined.

(** A delegation to "Alpha" whose client answers with a task that waits
    for input. *)
Lemma input_required_task_escalates_witness :
  let after :=
    (HostAgent.send_message Samples.b64decode Samples.save_artifact Samples.uuid4
       (λ _, Samples.client A2A.input_required [])
       Samples.registry (St := unit) None "Alpha" "hello" Samples.tool_context ()).2 in
  HostAgent.skip_summarization (HostAgent.actions after) = true
  ∧ HostAgent.escalate (HostAgent.actions after) = true
  ∧ HostAgent.state after !! "session_active" = Some (HostAgent.VBool true).
Proof.
  apply (input_required_task_escalates
           Samples.b64decode Samples.save_artifact Samples.uuid4
           (λ _, Samples.client A2A.input_required [])
           Samples.registry None "Alpha" "hello" Samples.tool_context ()
           {| RemoteAgentConnections.returned :=
                inr (RemoteAgentConnections.RTask (Samples.task_in A2A.input_required));
              RemoteAgentConnections.transport := RemoteAgentConnections.Unary;
              RemoteAgentConnections.consumed := 0%nat;
              RemoteAgentConnections.observer := () |}
           (Samples.task_in A2A.input_required)).
  - reflexivity.
  - reflexivity.
  - reflexivity.
Defined.

(** ** The two [stream] generators *)
Section StreamFacts.
Import ADK Stream.

Lemma router_final_response_no_content ps :
  no_content ps = true → RouterAgent.final_response ps = inr (Text "").
Proof.
  intros H. destruct ps as [|p0 ps]; [done|]. simpl in *.
  apply andb_prop in H as [H0 Hps]. apply andb_prop in H0 as [Ht Hf].
  apply negb_true_iff in Ht, Hf. rewrite Ht, Hf. simpl.
  replace (existsb _ ps) with false; [done|].
  symmetry. apply not_true_is_false. intros Hex.
  apply existsb_exists in Hex as (p & Hin & Hp).
  unfold no_content in Hps. rewrite forallb_forall in Hps. specialize (Hps p Hin).
  apply andb_prop in Hps as [_ Hps]. by rewrite Hp in Hps.
Qed.

Lemma agent_final_response_no_content ps :
  no_content ps = true → AgentEvolution.final_response ps = None.
Proof.
  intros H. unfold AgentEvolution.final_response.
  replace (existsb _ ps) with false.
  2:{ symmetry. apply not_true_is_false. intros Hex.
      apply existsb_exists in Hex as (p & Hin & Hp).
      unfold no_content in H. rewrite forallb_forall in H. specialize (H p Hin).
      apply andb_prop in H as [H _]. by rewrite Hp in H. }
  induction ps as [|p ps IH]; [done|]. simpl in *.
  apply andb_prop in H as [H0 Hps]. apply andb_prop in H0 as [_ Hf].
  apply negb_true_iff, bool_decide_eq_false in Hf.
  destruct (function_response p) as [dump|]; [by destruct Hf|].
  by apply IH.
Qed.

(** In the router, a failure of the run always leaves the generator as an
    exception. *)
Lemma router_stream_events_raise evs e :
  is_Some (raised (RouterAgent.stream_events evs (Some e))).
Proof.
  induction evs as [|event evs IH]; simpl; [done|].
  destruct (is_final_response event); [|done].
  by destruct (RouterAgent.final_response _).
Qed.

(** In the agent, the two [except] clauses leave nothing to escape from the
    loop, and a failed run ends with a completed item that tells of it. *)
Lemma agent_stream_events_guarded pm evs failure :
  raised (AgentEvolution.handle (AgentEvolution.stream_events pm evs failure)) = None.
Proof.
  unfold AgentEvolution.handle.
  by destruct (raised (AgentEvolution.stream_events pm evs failure)) eqn:E.
Qed.

Lemma agent_stream_events_raised pm evs failure :
  raised (AgentEvolution.stream_events pm evs failure) = failure.
Proof.
  induction evs as [|event evs IH]; simpl; [done|].
  destruct (is_final_response event); [|done].
  destruct (AgentEvolution.final_response _) as [c|]; [|done].
  by destruct (AgentEvolution.content_truthy c).
Qed.

Lemma agent_stream_events_failure pm evs e :
  last (yielded (AgentEvolution.handle (AgentEvolution.stream_events pm evs (Some e))))
  = Some (Complete (Text (if is_timeout e
                          then "Agent timed out while processing request"
                          else "Agent error: " +:+ exn_str e))).
Proof.
  unfold AgentEvolution.handle. rewrite agent_stream_events_raised.
  simpl. by rewrite last_snoc.
Qed.

(** The agent answers a final event without content with a progress update. *)
Lemma agent_stream_events_no_content pm event evs failure :
  is_final_response event = true →
  no_content (content_parts event) = true →
  AgentEvolution.stream_events pm (event :: evs) failure
  = yield (AgentEvolution.processing_update pm) (AgentEvolution.stream_events pm evs failure).
Proof.
  intros Hf Hn. simpl. rewrite Hf. by rewrite agent_final_response_no_content.
Qed.

(** The router answers it with a completed item whose content is the empty
    string. *)
Lemma router_stream_events_no_content event evs failure :
  is_final_response event = true →
  no_content (content_parts event) = true →
  RouterAgent.stream_events (event :: evs) failure
  = yield (Complete (Text "")) (RouterAgent.stream_events evs failure).
Proof.
  intros Hf Hn. simpl. rewrite Hf. by rewrite router_final_response_no_content.
Qed.

End StreamFacts.

(** C7 (the code at the failing input): the run behind [RouterAgent.stream]
    fails, once at its start and once by timing out after a progress event;
    both times the exception leaves the generator, and no completed item
    reports it. *)
Lemma router_stream_lets_failures_escape :
  RouterAgent.stream
    (Samples.runner {| ADK.events := []; ADK.run_failure := Some (OtherError "connection reset") |})
    "query" "session-1"
  = {| Stream.yielded := []; Stream.raised := Some (OtherError "connection reset") |}
  ∧ RouterAgent.stream
      (Samples.runner {| ADK.events := [Samples.progress_event];
                         ADK.run_failure := Some TimeoutError |})
      "query" "session-1"
    = {| Stream.yielded := [Stream.Update RouterAgent.get_processing_message];
         Stream.raised := Some TimeoutError |}.
Proof. split; reflexivity. Qed.

(** C8 (the code at the failing input): the run behind [RouterAgent.stream]
    gives one final event without content; the generator yields an item that
    declares the task complete, with the empty string as content. *)
Lemma router_stream_completes_on_empty_final_event :
  RouterAgent.stream
    (Samples.runner {| ADK.events := [Samples.empty_final_event]; ADK.run_failure := None |})
    "query" "session-1"
  = {| Stream.yielded := [Stream.Complete (Stream.Text "")]; Stream.raised := None |}.
Proof. reflexivity. Qed.

(** ** The execution adapter *)
Section ExecutorFacts.
Import A2A Stream MyAgentExecutor.

(** The status update published for a progress item. *)
Local Abbreviation progress task :=
  (λ updates, update_status working
                (new_agent_text_message updates (contextId task) (id task)) false).

Lemma consume_items_text (updates : list string) (s : string) (rest : list Item)
    (ending : option PyExn) (task : Task) :
  consume_items ((Update <$> updates) ++ Complete (Text s) :: rest) ending task
  = ((progress task <$> updates) ++ [add_artifact [TextPart s] "form"; complete], None).
Proof.
  induction updates as [|u updates IH]; [done|].
  rewrite !fmap_cons, <- !app_comm_cons. cbn [consume_items]. by rewrite IH.
Qed.

(** When the opening log line does not raise and the first completed item
    of the orchestrator's stream carries plain text, the adapter publishes,
    after the progress updates that came before it, one artifact named "form"
    holding that text and the completion of the task, and nothing of what the
    stream would give afterwards. *)
Lemma execute_publishes_text_as_form (context : RequestContext) (created : Task)
    (logged : string) (updates : list string) (s : string) (rest : list Item)
    (ending : option PyExn) :
  logged_context_id context = inr logged →
  let task := default created (current_task context) in
  execute context created
    (λ _, {| yielded := (Update <$> updates) ++ Complete (Text s) :: rest;
             raised := ending |})
  = ((match current_task context with Some _ => [] | None => [enqueue_event created] end)
     ++ (progress task <$> updates)
     ++ [add_artifact [TextPart s] "form"; complete],
     None).
Proof.
  intros Hlog task. unfold execute, task. rewrite Hlog.
  destruct (current_task context) as [t|]; cbn [yielded raised default];
    by rewrite consume_items_text.
Qed.

End ExecutorFacts.


(* ===================================================================== *)
(** * Part III: further properties of the modelled code                   *)
(* ===================================================================== *)

(** ** The directory and the management surface *)
Section DirectoryOperations.
Import A2A HostAgent Directory.

Lemma run_snoc ms m : run (ms ++ [m]) = apply (run ms) m.
Proof. unfold run. by rewrite foldl_app. Qed.

Lemma run_connections_match_cards ms : connections_match_cards (run ms).
Proof.
  induction ms as [|m ms IH] using rev_ind.
  - intros n. simpl. by rewrite !lookup_empty.
  - rewrite run_snoc. by apply apply_match.
Qed.

Lemma list_remove_first_snoc x l : x ∉ l → list_remove_first x (l ++ [x]) = l.
Proof.
  induction l as [|y l IH]; intros Hx; simpl.
  - by rewrite decide_True.
  - apply not_elem_of_cons in Hx as [Hxy Hx].
    rewrite decide_False by done. f_equal. by apply IH.
Qed.

Lemma list_remove_first_other x y l :
  y ≠ x → y ∈ l → y ∈ list_remove_first x l.
Proof.
  intros Hne. induction l as [|z l IH]; intros Hy; simpl; [done|].
  apply elem_of_cons in Hy as [->|Hy].
  - rewrite decide_False by done. apply elem_of_cons. by left.
  - case_decide; [done|]. apply elem_of_cons. right. by apply IH.
Qed.

Lemma list_remove_first_subseteq x l : list_remove_first x l ⊆ l.
Proof.
  induction l as [|z l IH]; simpl; [done|]. case_decide.
  - intros y Hy. apply elem_of_cons. by right.
  - intros y [->|Hy]%elem_of_cons; apply elem_of_cons; [by left|].
    right. by apply IH.
Qed.

Lemma list_remove_first_NoDup x l : NoDup l → NoDup (list_remove_first x l).
Proof.
  induction 1 as [|z l Hz Hl IH]; simpl; [constructor|].
  case_decide; [done|]. constructor; [|done].
  intros Hin. by apply Hz, (list_remove_first_subseteq x).
Qed.

Lemma add_address_NoDup l a : NoDup l → NoDup (add_address l a).
Proof.
  intros Hl. unfold add_address. case_decide; [done|].
  apply NoDup_app. split; [done|]. split; [|apply NoDup_singleton].
  by intros x Hx ->%list_elem_of_singleton.
Qed.

Lemma foldl_add_address_NoDup new l : NoDup l → NoDup (foldl add_address l new).
Proof.
  revert l. induction new as [|a new IH]; intros l Hl; simpl; [done|].
  by apply IH, add_address_NoDup.
Qed.

Lemma remove_agent_card_addresses n r r' :
  remove_agent_card n r = inr r' →
  NoDup (remote_agent_addresses r) → NoDup (remote_agent_addresses r').
Proof.
  unfold remove_agent_card.
  destruct (remote_agent_connections r !! n); [|done].
  intros [= <-] Hr. simpl.
  destruct (_ && _); [by apply list_remove_first_NoDup | done].
Qed.

(** Removing a name that has no card is refused with "not found", and the
    directory stays as it was. *)
Theorem remove_unregistered_agent_is_refused (ms : list Mutation) (n : string) :
  cards (run ms) !! n = None →
  HostServer.remove_agent n (run ms)
  = (run ms, HostServer.Http404 ("Agent " +:+ n +:+ " not found")).
Proof.
  intros Hn. pose proof (run_connections_match_cards ms n) as Hm.
  rewrite Hn in Hm. unfold HostServer.remove_agent, remove_agent_card.
  by destruct (remote_agent_connections (run ms) !! n).
Qed.

(** Registering a card and then removing its name always succeeds; both maps
    are what they were without that name, and of the addresses at most the
    card's own url is dropped. *)
Theorem register_then_remove (c : AgentCard) (r : Registry) :
  ∃ r', remove_agent_card (name c) (register_agent_card c r) = inr r'
    ∧ remote_agent_connections r' = delete (name c) (remote_agent_connections r)
    ∧ cards r' = delete (name c) (cards r)
    ∧ ∀ a, a ≠ url c → a ∈ remote_agent_addresses r → a ∈ remote_agent_addresses r'.
Proof.
  unfold remove_agent_card, register_agent_card. simpl.
  rewrite lookup_insert_eq. eexists. split; [reflexivity|]. simpl.
  rewrite !delete_insert_eq. split; [done|]. split; [done|].
  intros a Ha Hin. destruct (_ && _); [by apply list_remove_first_other | done].
Qed.

(** Once an address was added, adding it again is refused and changes
    nothing, whatever its card resolution gives. *)
Theorem add_agent_twice_is_refused (address : string) (c : AgentCard)
    (resolved : PyExn + AgentCard) (r : Registry) :
  let r1 := (HostServer.add_agent address (inr c) r).1 in
  HostServer.add_agent address resolved r1
  = (r1, HostServer.Http400 "Agent address already registered").
Proof.
  intros r1. unfold r1, HostServer.add_agent at 2 3.
  destruct (decide (address ∈ remote_agent_addresses r)) as [Hin|Hnin]; simpl.
  - unfold HostServer.add_agent. by rewrite decide_True.
  - unfold HostServer.add_agent. simpl.
    rewrite decide_True; [done|]. apply elem_of_app. right. by apply list_elem_of_singleton.
Qed.

(** The address list never holds an address twice, as long as every
    [add_agent] ran without another change in its middle. *)
Theorem addresses_never_repeat (ms : list Mutation) :
  forallb checked ms = true → NoDup (remote_agent_addresses (run ms)).
Proof.
  induction ms as [|m ms IH] using rev_ind; intros Hms.
  - constructor.
  - rewrite forallb_app in Hms. apply andb_prop in Hms as [Hms Hm].
    specialize (IH Hms). rewrite run_snoc.
    destruct m; simpl in *; try done.
    + by apply foldl_add_address_NoDup.
    + destruct (remove_agent_card agent_name (run ms)) eqn:E; [done|].
      by eapply remove_agent_card_addresses.
    + unfold HostServer.add_agent. case_decide; [done|].
      destruct resolved; simpl; [done|].
      apply NoDup_app. split; [done|]. split; [|apply NoDup_singleton].
      by intros x Hx ->%list_elem_of_singleton.
    + unfold HostServer.remove_agent.
      destruct (remove_agent_card agent_name (run ms)) eqn:E; [done|].
      by eapply remove_agent_card_addresses.
Qed.

(** An agent added under an address that is not the url of its card leaves
    that address behind when it is removed: the agent is gone, the address is
    still registered, and adding it again is refused. *)
Theorem removal_keeps_foreign_address (address : string) (c : AgentCard)
    (resolved : PyExn + AgentCard) (r : Registry) :
  address ∉ remote_agent_addresses r →
  url c ≠ address →
  let r2 := (HostServer.remove_agent (name c)
               (HostServer.add_agent address (inr c) r).1).1 in
  cards r2 !! name c = None
  ∧ remote_agent_connections r2 !! name c = None
  ∧ address ∈ remote_agent_addresses r2
  ∧ HostServer.add_agent address resolved r2
    = (r2, HostServer.Http400 "Agent address already registered").
Proof.
  intros Hnin Hurl r2.
  assert (Hr2 : cards r2 !! name c = None
                ∧ remote_agent_connections r2 !! name c = None
                ∧ address ∈ remote_agent_addresses r2).
  { unfold r2, HostServer.add_agent. rewrite decide_False by done. simpl.
    unfold HostServer.remove_agent, remove_agent_card, HostServer.add_resolved. simpl.
    rewrite lookup_insert_eq. simpl. rewrite !lookup_delete_eq.
    split; [done|]. split; [done|].
    assert (address ∈ remote_agent_addresses r ++ [address])
      by (apply elem_of_app; right; by apply list_elem_of_singleton).
    destruct (_ && _); [by apply list_remove_first_other | done]. }
  destruct Hr2 as (Hc & Hconn & Hin). repeat split; try done.
  unfold HostServer.add_agent. by rewrite decide_True.
Qed.

(** Adding an agent under the url of its card and removing it again gives
    back the address list as it was, and both maps without that name. *)
Theorem add_then_remove_restores (address : string) (c : AgentCard) (r : Registry) :
  address ∉ remote_agent_addresses r →
  url c = address →
  address ≠ "" →
  let r2 := (HostServer.remove_agent (name c)
               (HostServer.add_agent address (inr c) r).1).1 in
  remote_agent_addresses r2 = remote_agent_addresses r
  ∧ remote_agent_connections r2 = delete (name c) (remote_agent_connections r)
  ∧ cards r2 = delete (name c) (cards r).
Proof.
  intros Hnin Hurl Hne r2. unfold r2, HostServer.add_agent.
  rewrite decide_False by done. simpl.
  unfold HostServer.remove_agent, remove_agent_card, HostServer.add_resolved. simpl.
  rewrite lookup_insert_eq. simpl. rewrite !delete_insert_eq, Hurl.
  replace (str_truthy address) with true by (by destruct address).
  rewrite bool_decide_eq_true_2
    by (apply elem_of_app; right; by apply list_elem_of_singleton).
  simpl. by rewrite list_remove_first_snoc.
Qed.

End DirectoryOperations.

(** ** Listing and bulk registration *)
Section DirectoryListing.
Import A2A HostAgent Directory.

Lemma apply_keyed r m : cards_keyed_by_name r → cards_keyed_by_name (apply r m).
Proof.
  assert (Hstore : ∀ c r0, cards_keyed_by_name r0 →
            ∀ n c', <[name c := c]> (cards r0) !! n = Some c' → name c' = n).
  { intros c r0 Hr0 n c' [[<- <-]|[_ Hc]]%lookup_insert_Some; [done|]. by apply Hr0. }
  assert (Hdel : ∀ k r0, cards_keyed_by_name r0 →
            ∀ n c', delete k (cards r0) !! n = Some c' → name c' = n).
  { intros k r0 Hr0 n c' [_ Hc]%lookup_delete_Some. by apply Hr0. }
  intros Hr. destruct m; simpl; try done.
  - exact (Hstore c r Hr).
  - exact (Hstore c r Hr).
  - unfold remove_agent_card.
    destruct (remote_agent_connections r !! agent_name); [|done].
    exact (Hdel agent_name r Hr).
  - unfold HostServer.add_agent. case_decide; [done|].
    destruct resolved as [e|c]; [done|]. exact (Hstore c r Hr).
  - exact (Hstore c r Hr).
  - unfold HostServer.remove_agent, remove_agent_card.
    destruct (remote_agent_connections r !! agent_name); [|done].
    exact (Hdel agent_name r Hr).
Qed.

Lemma run_keyed ms : cards_keyed_by_name (run ms).
Proof.
  induction ms as [|m ms IH] using rev_ind.
  - intros n c. simpl. by rewrite lookup_empty.
  - rewrite run_snoc. by apply apply_keyed.
Qed.

(** The listing has one entry per stored card, under the key of the card. *)
Lemma list_remote_agents_names r :
  connections_match_cards r → cards_keyed_by_name r →
  info_name <$> list_remote_agents r = (map_to_list (cards r)).*1.
Proof.
  intros Hm Hk. unfold list_remote_agents. case_decide as Hempty.
  - assert (cards r = ∅) as ->; [|by rewrite map_to_list_empty].
    apply map_eq. intros n. by rewrite <- (Hm n), Hempty, !lookup_empty.
  - rewrite <- list_fmap_compose. apply list_fmap_ext.
    intros i [n c] Hi. simpl. apply Hk.
    by apply elem_of_map_to_list, list_elem_of_lookup_2 with i.
Qed.

(** After any sequence of changes, the listing names exactly the agents
    that have a connection, each once, and every entry carries the
    description of the card stored under its name. *)
Theorem list_remote_agents_lists_registered (ms : list Mutation) :
  NoDup (info_name <$> list_remote_agents (run ms))
  ∧ (∀ n, n ∈ info_name <$> list_remote_agents (run ms)
          ↔ is_Some (remote_agent_connections (run ms) !! n))
  ∧ (∀ i, i ∈ list_remote_agents (run ms) →
          description <$> cards (run ms) !! info_name i = Some (info_description i)).
Proof.
  pose proof (run_connections_match_cards ms) as Hm.
  pose proof (run_keyed ms) as Hk.
  rewrite (list_remote_agents_names _ Hm Hk).
  split; [apply NoDup_fst_map_to_list|]. split.
  - intros n. rewrite <- (fmap_is_Some RemoteAgentConnections.card), (Hm n).
    rewrite list_elem_of_fmap. split.
    + intros ([n' c] & -> & Hc). apply elem_of_map_to_list in Hc. by exists c.
    + intros [c Hc]. exists (n, c). split; [done|]. by apply elem_of_map_to_list.
  - intros i. unfold list_remote_agents. case_decide; [by intros ?%elem_of_nil|].
    intros ([n c] & -> & Hc)%list_elem_of_fmap. simpl.
    apply elem_of_map_to_list in Hc. rewrite (Hk _ _ Hc), Hc. done.
Qed.

Lemma register_agent_cards_loop_result resolve addrs r r' outcome :
  register_agent_cards_loop resolve addrs r = (r', outcome) →
  remote_agent_addresses r' = remote_agent_addresses r
  ∧ agents r' = agents r
  ∧ (∀ n, is_Some (cards r !! n) → is_Some (cards r' !! n))
  ∧ (∀ n, is_Some (remote_agent_connections r !! n)
          → is_Some (remote_agent_connections r' !! n))
  ∧ match outcome with
    | None =>
        ∀ a, a ∈ addrs →
          ∃ c, resolve a = inr c ∧ is_Some (cards r' !! name c)
               ∧ is_Some (remote_agent_connections r' !! name c)
    | Some e => ∃ a, a ∈ addrs ∧ resolve a = inl e
    end.
Proof.
  revert r. induction addrs as [|a addrs IH]; intros r; simpl.
  - intros [= <- <-]. repeat split; try done. by intros a ?%elem_of_nil.
  - destruct (resolve a) as [e|c] eqn:Ea.
    + intros [= <- <-]. repeat split; try done. exists a. split; [|done].
      apply elem_of_cons. by left.
    + intros Hloop. destruct (IH _ Hloop) as (Haddr & Hag & Hcards & Hconns & Hout).
      simpl in *. split; [done|]. split; [done|].
      assert (Hc : ∀ n, is_Some (cards r !! n) → is_Some (cards r' !! n)).
      { intros n Hn. apply Hcards. rewrite lookup_insert_is_Some.
        destruct (decide (name c = n)); auto. }
      assert (Hk : ∀ n, is_Some (remote_agent_connections r !! n)
                        → is_Some (remote_agent_connections r' !! n)).
      { intros n Hn. apply Hconns. rewrite lookup_insert_is_Some.
        destruct (decide (name c = n)); auto. }
      split; [done|]. split; [done|].
      destruct outcome as [e|].
      * destruct Hout as (a' & Ha' & He). exists a'. split; [|done].
        apply elem_of_cons. by right.
      * intros a' [->|Ha']%elem_of_cons; [|by apply Hout].
        exists c. split; [done|]. split.
        -- apply Hcards. rewrite lookup_insert_eq. by eexists.
        -- apply Hconns. rewrite lookup_insert_eq. by eexists.
Qed.

(** When the task of [register_agent_cards] ends without error, every
    registered address has been resolved and the name of its card has a card
    and a connection; the summary is recomputed from the listing. *)
Theorem register_agent_cards_covers_addresses (resolve : string → PyExn + AgentCard)
    (r r' : Registry) :
  register_agent_cards resolve r = (r', None) →
  agents r' = list_remote_agents r'
  ∧ remote_agent_addresses r' = remote_agent_addresses r
  ∧ ∀ a, a ∈ remote_agent_addresses r →
      ∃ c, resolve a = inr c ∧ is_Some (cards r' !! name c)
           ∧ is_Some (remote_agent_connections r' !! name c).
Proof.
  unfold register_agent_cards.
  destruct (register_agent_cards_loop resolve (remote_agent_addresses r) r)
    as [r1 [e|]] eqn:Hloop; [done|].
  intros [= <-].
  destruct (register_agent_cards_loop_result _ _ _ _ _ Hloop) as (Ha & _ & _ & _ & Hout).
  done.
Qed.

(** A loop that ends with an error stopped at the first address that could
    not be resolved, having stored the cards of the addresses before it. *)
Lemma register_agent_cards_loop_failure resolve addrs r r' e :
  register_agent_cards_loop resolve addrs r = (r', Some e) →
  ∃ resolved a rest cs,
    addrs = resolved ++ a :: rest
    ∧ Forall2 (λ b c, resolve b = inr c) resolved cs
    ∧ resolve a = inl e
    ∧ r' = foldl (λ r0 c, store_card c r0) r cs.
Proof.
  revert r. induction addrs as [|b addrs IH]; intros r; simpl; [done|].
  destruct (resolve b) as [e'|c] eqn:Hb.
  - intros [= <- <-]. exists [], b, addrs, []. repeat split; [constructor | done].
  - intros Hloop. destruct (IH _ Hloop) as (resolved & a & rest & cs & -> & Hcs & Ha & ->).
    exists (b :: resolved), a, rest, (c :: cs). repeat split; [by constructor | done].
Qed.

(** When a card resolution fails, the task ends with that error at once: the
    cards of the addresses before the failing one have been stored, in
    order, and nothing else was changed; in particular the summary is not
    recomputed. *)
Theorem register_agent_cards_failure_keeps_summary (resolve : string → PyExn + AgentCard)
    (r r' : Registry) (e : PyExn) :
  register_agent_cards resolve r = (r', Some e) →
  ∃ resolved a rest cs,
    remote_agent_addresses r = resolved ++ a :: rest
    ∧ Forall2 (λ b c, resolve b = inr c) resolved cs
    ∧ resolve a = inl e
    ∧ r' = foldl (λ r0 c, store_card c r0) r cs
    ∧ agents r' = agents r.
Proof.
  unfold register_agent_cards.
  destruct (register_agent_cards_loop resolve (remote_agent_addresses r) r)
    as [r1 [e'|]] eqn:Hloop; [|done].
  intros [= <- <-].
  destruct (register_agent_cards_loop_result _ _ _ _ _ Hloop) as (_ & Hag & _).
  destruct (register_agent_cards_loop_failure _ _ _ _ _ Hloop)
    as (resolved & a & rest & cs & Haddrs & Hcs & Ha & Hr1).
  by exists resolved, a, rest, cs.
Qed.

End DirectoryListing.

(** "Beta" was never registered. *)
Lemma remove_unregistered_agent_is_refused_witness :
  HostServer.remove_agent "Beta" (Directory.run [Directory.Register Samples.alpha])
  = (Directory.run [Directory.Register Samples.alpha],
     HostServer.Http404 "Agent Beta not found").
Proof.
  apply (remove_unregistered_agent_is_refused [Directory.Register Samples.alpha] "Beta").
  reflexivity.
Defined.

(** A constructor given an address twice, then the same address added. *)
Lemma addresses_never_repeat_witness :
  NoDup (HostAgent.remote_agent_addresses
           (Directory.run
              [Directory.Construct ["http://alpha.test"; "http://alpha.test"];
               Directory.ApiAdd "http://alpha.test" (inr Samples.alpha);
               Directory.ApiAdd "http://beta.test" (inr Samples.beta);
               Directory.Remove "Beta"])).
Proof.
  apply (addresses_never_repeat
           [Directory.Construct ["http://alpha.test"; "http://alpha.test"];
            Directory.ApiAdd "http://alpha.test" (inr Samples.alpha);
            Directory.ApiAdd "http://beta.test" (inr Samples.beta);
            Directory.Remove "Beta"]).
  reflexivity.
Defined.

(** "Alpha" added under an address with a trailing slash. *)
Lemma removal_keeps_foreign_address_witness :
  let r2 := (HostServer.remove_agent "Alpha"
               (HostServer.add_agent "http://alpha.test/" (inr Samples.alpha)
                  HostAgent.empty_registry).1).1 in
  HostAgent.cards r2 !! "Alpha" = None
  ∧ HostAgent.remote_agent_connections r2 !! "Alpha" = None
  ∧ "http://alpha.test/" ∈ HostAgent.remote_agent_addresses r2
  ∧ HostServer.add_agent "http://alpha.test/" (inr Samples.alpha) r2
    = (r2, HostServer.Http400 "Agent address already registered").
Proof.
  apply (removal_keeps_foreign_address "http://alpha.test/" Samples.alpha
           (inr Samples.alpha) HostAgent.empty_registry).
  - apply not_elem_of_nil.
  - discriminate.
Defined.

(** "Alpha" added under the url of its card. *)
Lemma add_then_remove_restores_witness :
  let r2 := (HostServer.remove_agent "Alpha"
               (HostServer.add_agent "http://alpha.test" (inr Samples.alpha)
                  HostAgent.empty_registry).1).1 in
  HostAgent.remote_agent_addresses r2 = []
  ∧ HostAgent.remote_agent_connections r2 = delete "Alpha" ∅
  ∧ HostAgent.cards r2 = delete "Alpha" ∅.
Proof.
  apply (add_then_remove_restores "http://alpha.test" Samples.alpha
           HostAgent.empty_registry).
  - apply not_elem_of_nil.
  - reflexivity.
  - discriminate.
Defined.

(** Two addresses that resolve to "Alpha" and "Beta". *)
Lemma register_agent_cards_covers_addresses_witness :
  let resolve := λ a : string,
    if decide (a = "http://alpha.test") then inr Samples.alpha else inr Samples.beta in
  let r := HostAgent.init ["http://alpha.test"; "http://beta.test"] HostAgent.empty_registry in
  let r' := (HostAgent.register_agent_cards resolve r).1 in
  HostAgent.agents r' = HostAgent.list_remote_agents r'
  ∧ HostAgent.remote_agent_addresses r' = HostAgent.remote_agent_addresses r
  ∧ ∀ a, a ∈ HostAgent.remote_agent_addresses r →
      ∃ c, resolve a = inr c ∧ is_Some (HostAgent.cards r' !! A2A.name c)
           ∧ is_Some (HostAgent.remote_agent_connections r' !! A2A.name c).
Proof.
  intros resolve r r'.
  apply (register_agent_cards_covers_addresses resolve r r').
  reflexivity.
Defined.

(** The second address cannot be resolved: "Alpha" is stored, the task
    stops at the address of "Beta". *)
Lemma register_agent_cards_failure_keeps_summary_witness :
  let resolve := λ a : string,
    if decide (a = "http://alpha.test") then inr Samples.alpha
    else inl (OtherError "connection refused") in
  let r := HostAgent.init ["http://alpha.test"; "http://beta.test"] HostAgent.empty_registry in
  let r' := HostAgent.store_card Samples.alpha r in
  HostAgent.cards r' !! "Alpha" = Some Samples.alpha
  ∧ ∃ resolved a rest cs,
      HostAgent.remote_agent_addresses r = resolved ++ a :: rest
      ∧ Forall2 (λ b c, resolve b = inr c) resolved cs
      ∧ resolve a = inl (OtherError "connection refused")
      ∧ r' = foldl (λ r0 c, HostAgent.store_card c r0) r cs
      ∧ HostAgent.agents r' = HostAgent.agents r.
Proof.
  intros resolve r r'. split; [reflexivity|].
  apply (register_agent_cards_failure_keeps_summary resolve r r'
           (OtherError "connection refused")).
  reflexivity.
Defined.

(** ** History trimming, for every length *)
Section HistoryLengths.
Import HostAgent.

Context {A : Type}.

Lemma last_drop_lt (l : list A) (n : nat) :
  (n < length l)%nat → last (drop n l) = last l.
Proof.
  intros Hn. rewrite !last_lookup, lookup_drop, length_drop. f_equal. lia.
Qed.

(** Every history is either left alone or cut to one of its suffixes of odd
    length. *)
Lemma before_model_callback_cases (contents : list A) :
  before_model_callback contents = contents
  ∨ ∃ k, length contents = (2 * k + 1)%nat
         ∧ before_model_callback contents = drop (2 * (k - 3)) contents.
Proof.
  destruct (Nat.Even_or_Odd (length contents)) as [[k Hk]|[k Hk]].
  - left. by apply (before_model_callback_even contents k).
  - right. exists k. split; [done|]. by apply before_model_callback_odd.
Qed.

(** What is kept is the end of the history: a suffix that still ends with
    the newest entry; and trimming what was trimmed changes nothing. *)
Theorem history_trimming_keeps_the_end (contents : list A) :
  before_model_callback contents `suffix_of` contents
  ∧ last (before_model_callback contents) = last contents
  ∧ before_model_callback (before_model_callback contents)
    = before_model_callback contents.
Proof.
  destruct (before_model_callback_cases contents) as [H|(k & Hk & H)].
  - by rewrite !H.
  - rewrite !H. split; [|split].
    + exists (take (2 * (k - 3)) contents). by rewrite take_drop.
    + apply last_drop_lt. lia.
    + destruct (before_model_callback_cases (drop (2 * (k - 3)) contents))
        as [H'|(k' & Hk' & H')]; [done|].
      rewrite H'. rewrite length_drop in Hk'.
      replace (2 * (k' - 3))%nat with 0%nat by lia. done.
Qed.

(** A history of odd length keeps its last seven entries, or all of them
    when it has fewer. *)
Theorem history_trimming_odd_keeps_seven (contents : list A) :
  Nat.odd (length contents) = true →
  length (before_model_callback contents) = (length contents `min` 7)%nat
  ∧ before_model_callback contents = drop (length contents - 7) contents.
Proof.
  intros [k Hk]%Nat.odd_spec.
  rewrite (before_model_callback_odd contents k) by done.
  rewrite length_drop, Hk. split; [lia|]. f_equal. lia.
Qed.

(** A history of even length is never cut, however long it is. *)
Theorem history_trimming_even_is_never_cut (contents : list A) :
  Nat.even (length contents) = true →
  before_model_callback contents = contents.
Proof.
  intros [k Hk]%Nat.even_spec. by apply (before_model_callback_even contents k).
Qed.

End HistoryLengths.

(** Eleven entries are cut to the last seven. *)
Lemma history_trimming_odd_keeps_seven_witness :
  length (HostAgent.before_model_callback (Samples.history 11)) = 7%nat
  ∧ HostAgent.before_model_callback (Samples.history 11) = [5; 6; 7; 8; 9; 10; 11]%nat.
Proof.
  apply (history_trimming_odd_keeps_seven (Samples.history 11)). reflexivity.
Defined.

(** Twenty entries stay twenty. *)
Lemma history_trimming_even_is_never_cut_witness :
  HostAgent.before_model_callback (Samples.history 20) = Samples.history 20.
Proof.
  apply (history_trimming_even_is_never_cut (Samples.history 20)). reflexivity.
Defined.

(** ** The two exchanges of a connection *)
Section ConnectionExchanges.
Import A2A RemoteAgentConnections.

Context {St : Type}.
Implicit Types (self : RemoteAgentConnections.t) (cb : option (TaskUpdateCallback St)).

(** Unless streaming is both asked for and declared by the card, the unary
    call is made and its answer handed back; the callback is called once,
    and only when the answer is a task. *)
Theorem send_without_declared_streaming_is_unary self (client : A2AClient)
    (request : MessageSendParams) cb (streaming : bool) (s : St) :
  streaming = false ∨ declares_streaming (card self) = false →
  let sent := send_message self client request cb streaming s in
  transport sent = Unary
  ∧ consumed sent = 0%nat
  ∧ returned sent = unary_result (A2A.send_message client request)
  ∧ observer sent
    = match A2A.send_message client request, cb with
      | UnaryTask result, Some f => (f s (ArgTask result) (card self)).2
      | _, _ => s
      end.
Proof.
  intros Hgate. unfold send_message.
  replace (streaming && declares_streaming (card self)) with false
    by (destruct Hgate as [-> | ->]; by rewrite ?andb_false_r).
  destruct (A2A.send_message client request), cb; simpl; done.
Qed.

(** A message or an error envelope in the stream ends the exchange at once,
    after the callback has seen the task events before it and nothing of what
    follows: the message is what the send returns; on the error envelope the
    send raises [AttributeError], for it reads the [result] the envelope does
    not have. *)
Theorem streamed_send_stops_at_message_or_error self (client : A2AClient)
    (request : MessageSendParams) cb (events : list TaskCallbackArg)
    (response : StreamingResponse) (result : PyExn + SendResult)
    (rest : list StreamingResponse) (s : St) :
  declares_streaming (card self) = true →
  responses (A2A.send_message_streaming client request)
    = (StreamEvent <$> events) ++ response :: rest →
  Forall (λ e, final_flag e = false) events →
  closing_result response = Some result →
  let sent := send_message self client request cb true s in
  returned sent = result
  ∧ consumed sent = S (length events)
  ∧ observer sent = (observed cb (card self) events None s).2.
Proof.
  intros Hs Hr Hnf Hclose. unfold send_message. rewrite Hs, Hr. simpl.
  rewrite consume_non_final by done.
  destruct response as [err|m|event]; simpl in *; [| |done];
    injection Hclose as <-; by destruct cb.
Qed.

(** When the stream breaks off with an exception after task events that are
    not final, the send raises that exception. *)
Theorem streamed_send_raises_stream_failure self (client : A2AClient)
    (request : MessageSendParams) cb (events : list TaskCallbackArg)
    (e : PyExn) (s : St) :
  declares_streaming (card self) = true →
  A2A.send_message_streaming client request
    = {| responses := StreamEvent <$> events; stream_failure := Some e |} →
  Forall (λ e, final_flag e = false) events →
  let sent := send_message self client request cb true s in
  returned sent = inl e ∧ consumed sent = length events.
Proof.
  intros Hs Hr Hnf. unfold send_message. rewrite Hs, Hr. simpl.
  rewrite <- (app_nil_r (StreamEvent <$> events)).
  rewrite consume_non_final by done. done.
Qed.

End ConnectionExchanges.

(** Streaming is asked for, "Beta" does not declare it. *)
Lemma send_without_declared_streaming_is_unary_witness :
  let sent :=
    RemoteAgentConnections.send_message Samples.beta_connection
      (Samples.client A2A.completed [Samples.status_event true])
      Samples.request (Some Samples.counting_callback) true 0%nat in
  RemoteAgentConnections.transport sent = RemoteAgentConnections.Unary
  ∧ RemoteAgentConnections.consumed sent = 0%nat
  ∧ RemoteAgentConnections.returned sent
    = inr (RemoteAgentConnections.RTask (Samples.task_in A2A.completed))
  ∧ RemoteAgentConnections.observer sent = 1%nat.
Proof.
  apply (send_without_declared_streaming_is_unary Samples.beta_connection
           (Samples.client A2A.completed [Samples.status_event true])
           Samples.request (Some Samples.counting_callback) true 0%nat).
  right. reflexivity.
Defined.

(** A progress event, then a message or an error envelope, then a final
    event that is never taken. *)
Lemma streamed_send_stops_at_message_or_error_witness :
  let stream_with := λ response,
    Samples.client_with (A2A.UnaryMessage Samples.reply)
      {| A2A.responses :=
           [A2A.StreamEvent (Samples.status_event false); response;
            A2A.StreamEvent (Samples.status_event true)];
         A2A.stream_failure := None |} in
  let error := A2A.StreamError {| A2A.code := (-32603)%Z; A2A.error_message := "Internal error" |} in
  (let sent :=
     RemoteAgentConnections.send_message Samples.alpha_connection
       (stream_with (A2A.StreamMessage Samples.reply))
       Samples.request (Some Samples.counting_callback) true 0%nat in
   RemoteAgentConnections.returned sent = inr (RemoteAgentConnections.RMessage Samples.reply)
   ∧ RemoteAgentConnections.consumed sent = 2%nat
   ∧ RemoteAgentConnections.observer sent = 1%nat)
  ∧ (let sent :=
       RemoteAgentConnections.send_message Samples.alpha_connection (stream_with error)
         Samples.request (Some Samples.counting_callback) true 0%nat in
     RemoteAgentConnections.returned sent
     = inl (AttributeError "'JSONRPCErrorResponse' object has no attribute 'result'")
     ∧ RemoteAgentConnections.consumed sent = 2%nat
     ∧ RemoteAgentConnections.observer sent = 1%nat).
Proof.
  intros stream_with error. split.
  - apply (streamed_send_stops_at_message_or_error Samples.alpha_connection
             (stream_with (A2A.StreamMessage Samples.reply))
             Samples.request (Some Samples.counting_callback)
             [Samples.status_event false] (A2A.StreamMessage Samples.reply)
             (inr (RemoteAgentConnections.RMessage Samples.reply))
             [A2A.StreamEvent (Samples.status_event true)] 0%nat).
    + reflexivity.
    + reflexivity.
    + repeat constructor.
    + reflexivity.
  - apply (streamed_send_stops_at_message_or_error Samples.alpha_connection
             (stream_with error)
             Samples.request (Some Samples.counting_callback)
             [Samples.status_event false] error
             (inl RemoteAgentConnections.no_result_attribute)
             [A2A.StreamEvent (Samples.status_event true)] 0%nat).
    + reflexivity.
    + reflexivity.
    + repeat constructor.
    + reflexivity.
Defined.

(** The connection drops after one progress event. *)
Lemma streamed_send_raises_stream_failure_witness :
  let sent :=
    RemoteAgentConnections.send_message (St := unit) Samples.alpha_connection
      (Samples.client_with (A2A.UnaryMessage Samples.reply)
         {| A2A.responses := [A2A.StreamEvent (Samples.status_event false)];
            A2A.stream_failure := Some (OtherError "connection reset") |})
      Samples.request None true () in
  RemoteAgentConnections.returned sent = inl (OtherError "connection reset")
  ∧ RemoteAgentConnections.consumed sent = 1%nat.
Proof.
  apply (streamed_send_raises_stream_failure (St := unit) Samples.alpha_connection
           (Samples.client_with (A2A.UnaryMessage Samples.reply)
              {| A2A.responses := [A2A.StreamEvent (Samples.status_event false)];
                 A2A.stream_failure := Some (OtherError "connection reset") |})
           Samples.request None [Samples.status_event false]
           (OtherError "connection reset") ()).
  - reflexivity.
  - reflexivity.
  - repeat constructor.
Defined.

(** ** Delegation: the session state and the converted parts *)
Section DelegationState.
Import A2A HostAgent.

Variable b64decode : string → PyExn + string.
Variable save_artifact : ArtifactStore → option string → Blob → PyExn + ArtifactStore.
Variable uuid4 : nat → string.
Variable network : AgentCard → A2AClient.
Context {St : Type}.

Local Abbreviation send_message_try :=
  (HostAgent.send_message_try b64decode save_artifact uuid4 network).
Local Abbreviation send_message :=
  (HostAgent.send_message b64decode save_artifact uuid4 network).
Local Abbreviation convert_part := (HostAgent.convert_part b64decode save_artifact).
Local Abbreviation convert_parts := (HostAgent.convert_parts b64decode save_artifact).
Local Abbreviation convert_artifacts := (HostAgent.convert_artifacts b64decode save_artifact).
Local Abbreviation collect_response := (HostAgent.collect_response b64decode save_artifact).
Local Abbreviation apply_task_policy := (HostAgent.apply_task_policy b64decode save_artifact).

(** The tool context after the [try] block is the one [send_message]
    returns. *)
Lemma send_message_context self cb agent_name message tc (s : St) :
  (send_message self cb agent_name message tc s).2
  = context (send_message_try self cb agent_name message tc s).
Proof. unfold HostAgent.send_message. by destruct (outcome _). Qed.

(** What the [try] block makes of each kind of answer. *)
Lemma send_message_try_sent self cb agent_name message tc (s : St) sent :
  exchange (send_message_try self cb agent_name message tc s) = Some sent →
  let attempt := send_message_try self cb agent_name message tc s in
  let bound := set_state "agent" (VStr agent_name) tc in
  (context attempt, outcome attempt)
  = match RemoteAgentConnections.returned sent with
    | inl e => (bound, inl e)
    | inr (RemoteAgentConnections.RMessage m) => convert_parts (parts m) bound
    | inr (RemoteAgentConnections.RTask task) => apply_task_policy agent_name task bound
    | inr (RemoteAgentConnections.RError _) =>
        (bound, inl (AttributeError "'JSONRPCError' object has no attribute 'id'"))
    | inr RemoteAgentConnections.RNone =>
        (bound, inl (AttributeError "'NoneType' object has no attribute 'id'"))
    end.
Proof.
  unfold HostAgent.send_message_try.
  destruct (remote_agent_connections self !! agent_name) as [client|]; [|done].
  match goal with
  | |- context [match ?r with inl _ => _ | inr _ => _ end] => destruct r as [e|request]
  end; [done|].
  match goal with
  | |- context [RemoteAgentConnections.send_message ?a ?b ?c ?d ?e ?f] =>
      generalize (RemoteAgentConnections.send_message a b c d e f)
  end.
  intros sent0.
  destruct (RemoteAgentConnections.returned sent0) as [e|[tk|m|err|]] eqn:Er;
    try (intros [= <-]; simpl; by rewrite Er).
  - destruct (apply_task_policy _ _ _) eqn:Ep. intros [= <-]. simpl. by rewrite Er.
  - destruct (convert_parts _ _) eqn:Ep. intros [= <-]. simpl. by rewrite Er.
Qed.

(** Without an exchange the tool context is untouched or only bound to the
    agent. *)
Lemma send_message_try_unsent self cb agent_name message tc (s : St) :
  exchange (send_message_try self cb agent_name message tc s) = None →
  let after := context (send_message_try self cb agent_name message tc s) in
  after = tc ∨ after = set_state "agent" (VStr agent_name) tc.
Proof.
  unfold HostAgent.send_message_try.
  destruct (remote_agent_connections self !! agent_name) as [client|]; [|by left].
  match goal with
  | |- context [match ?r with inl _ => _ | inr _ => _ end] => destruct r as [e|request]
  end; [by right|].
  match goal with
  | |- context [RemoteAgentConnections.send_message ?a ?b ?c ?d ?e ?f] =>
      generalize (RemoteAgentConnections.send_message a b c d e f)
  end.
  intros sent0.
  destruct (RemoteAgentConnections.returned sent0) as [e|[tk|m|err|]];
    try (destruct (apply_task_policy _ _ _)); try (destruct (convert_parts _ _)); done.
Qed.

(** The session state the task branch leaves. *)
Lemma apply_task_policy_state agent_name task tc :
  state (apply_task_policy agent_name task tc).1
  = <["task_id" := VStr (id task)]>
      (match contextId task with
       | Some c => if str_truthy c then <["context_id" := VStr c]> else λ m, m
       | None => λ m, m
       end
         (<["session_active" :=
              VBool (negb (bool_decide (A2A.state (status task) ∈ closing_states)))]>
            (state tc))).
Proof.
  unfold HostAgent.apply_task_policy.
  assert (Hc : ∀ t, state (collect_response task t).1 = state t)
    by (intros t; apply collect_response_keeps).
  destruct (A2A.state (status task)); rewrite ?Hc; simpl;
    by destruct (contextId task) as [c|]; [destruct (str_truthy c)|].
Qed.

(** Parts that are not files are converted without touching the tool
    context. *)
Lemma convert_parts_plain ps tc :
  forallb (λ p, negb (is_file p)) ps = true →
  convert_parts ps tc = (tc, inr (omap plain_value ps)).
Proof.
  induction ps as [|p ps IH]; simpl; [done|].
  intros [Hp Hps]%andb_prop.
  destruct p; simpl in *; try done; by rewrite IH.
Qed.

Lemma convert_artifacts_plain arts tc :
  forallb (λ p, negb (is_file p)) (concat (artifact_parts <$> arts)) = true →
  convert_artifacts arts tc = (tc, inr (omap plain_value (concat (artifact_parts <$> arts)))).
Proof.
  induction arts as [|a arts IH]; simpl; [done|].
  rewrite forallb_app. intros [Ha Harts]%andb_prop.
  rewrite convert_parts_plain, IH by done. by rewrite omap_app.
Qed.

Lemma collect_response_plain task tc :
  forallb (λ p, negb (is_file p)) (task_parts task) = true →
  collect_response task tc = (tc, inr (omap plain_value (task_parts task))).
Proof.
  unfold task_parts, HostAgent.collect_response.
  rewrite forallb_app. intros [Hm Ha]%andb_prop. rewrite omap_app.
  destruct (message (status task)) as [m|]; simpl in *.
  - rewrite convert_parts_plain by done. by rewrite convert_artifacts_plain.
  - by rewrite convert_artifacts_plain.
Qed.

(** A delegation assigns no key of the session state but 'agent',
    'session_active', 'context_id' and 'task_id'; 'message_id' in particular
    is read and never written. *)
Theorem delegation_assigns_only_its_keys (self : Registry)
    (cb : option (RemoteAgentConnections.TaskUpdateCallback St))
    (agent_name message : string) (tc : ToolContext) (s : St) (k : string) :
  k ∉ assigned_keys →
  state (send_message self cb agent_name message tc s).2 !! k = state tc !! k.
Proof.
  intros Hk. unfold assigned_keys in Hk.
  apply not_elem_of_cons in Hk as [Hagent Hk].
  apply not_elem_of_cons in Hk as [Hactive Hk].
  apply not_elem_of_cons in Hk as [Hctx Hk].
  apply not_elem_of_cons in Hk as [Htask _].
  assert (Hbound : state (set_state "agent" (VStr agent_name) tc) !! k = state tc !! k)
    by (simpl; by rewrite lookup_insert_ne).
  rewrite send_message_context.
  destruct (exchange (send_message_try self cb agent_name message tc s)) as [sent|] eqn:Ex.
  - pose proof (send_message_try_sent _ _ _ _ _ _ _ Ex) as Hsent. simpl in Hsent.
    apply (f_equal fst) in Hsent. simpl in Hsent. rewrite Hsent.
    destruct (RemoteAgentConnections.returned sent) as [e|[task|m|err|]]; try done.
    + rewrite apply_task_policy_state. simpl.
      rewrite lookup_insert_ne by done.
      destruct (contextId task) as [c|]; [destruct (str_truthy c)|];
        rewrite ?(lookup_insert_ne _ "context_id") by done;
        rewrite lookup_insert_ne by done; by rewrite lookup_insert_ne.
    + destruct (convert_parts_keeps b64decode save_artifact (parts m)
                  (set_state "agent" (VStr agent_name) tc)) as [-> _]. done.
  - destruct (send_message_try_unsent _ _ _ _ _ _ Ex) as [-> | ->]; done.
Qed.

(** When the exchange gives no task (the call raises, or answers with a
    message or an error envelope), the session state is only bound to the
    agent: task id, context id and the active flag stay as they were. *)
Theorem delegation_without_task_keeps_ids (self : Registry)
    (cb : option (RemoteAgentConnections.TaskUpdateCallback St))
    (agent_name message : string) (tc : ToolContext) (s : St)
    (sent : RemoteAgentConnections.Outcome St) :
  exchange (send_message_try self cb agent_name message tc s) = Some sent →
  (∀ task, RemoteAgentConnections.returned sent ≠ inr (RemoteAgentConnections.RTask task)) →
  state (send_message self cb agent_name message tc s).2
  = <["agent" := VStr agent_name]> (state tc).
Proof.
  intros Ex Hno. rewrite send_message_context.
  pose proof (send_message_try_sent _ _ _ _ _ _ _ Ex) as Hsent. simpl in Hsent.
  apply (f_equal fst) in Hsent. simpl in Hsent. rewrite Hsent.
  destruct (RemoteAgentConnections.returned sent) as [e|[task|m|err|]]; try done.
  - by destruct (Hno task).
  - by destruct (convert_parts_keeps b64decode save_artifact (parts m)
                   (set_state "agent" (VStr agent_name) tc)) as [-> _].
Qed.

(** A message answer without file parts comes back as its texts and data
    payloads, in order, and the tool context is only bound to the agent. *)
Theorem message_reply_is_converted (self : Registry)
    (cb : option (RemoteAgentConnections.TaskUpdateCallback St))
    (agent_name message : string) (tc : ToolContext) (s : St)
    (sent : RemoteAgentConnections.Outcome St) (m : Message) :
  exchange (send_message_try self cb agent_name message tc s) = Some sent →
  RemoteAgentConnections.returned sent = inr (RemoteAgentConnections.RMessage m) →
  forallb (λ p, negb (is_file p)) (parts m) = true →
  send_message self cb agent_name message tc s
  = (Response (omap plain_value (parts m)), set_state "agent" (VStr agent_name) tc).
Proof.
  intros Ex Hret Hplain.
  pose proof (send_message_try_sent _ _ _ _ _ _ _ Ex) as Hsent. simpl in Hsent.
  rewrite Hret, convert_parts_plain in Hsent by done.
  injection Hsent as Hc Ho. unfold HostAgent.send_message. by rewrite Ho, Hc.
Qed.

(** A task that is neither canceled nor failed and carries no file comes
    back as the parts of its status message followed by the parts of its
    artifacts, each as its text or data payload. *)
Theorem task_parts_come_back_in_order (self : Registry)
    (cb : option (RemoteAgentConnections.TaskUpdateCallback St))
    (agent_name message : string) (tc : ToolContext) (s : St)
    (sent : RemoteAgentConnections.Outcome St) (task : Task) :
  exchange (send_message_try self cb agent_name message tc s) = Some sent →
  RemoteAgentConnections.returned sent = inr (RemoteAgentConnections.RTask task) →
  A2A.state (status task) ≠ canceled →
  A2A.state (status task) ≠ failed →
  forallb (λ p, negb (is_file p)) (task_parts task) = true →
  (send_message self cb agent_name message tc s).1
  = Response (omap plain_value (task_parts task)).
Proof.
  intros Ex Hret Hcan Hfail Hplain.
  pose proof (send_message_try_sent _ _ _ _ _ _ _ Ex) as Hsent. simpl in Hsent.
  rewrite Hret in Hsent. unfold HostAgent.apply_task_policy in Hsent.
  unfold HostAgent.send_message.
  destruct (A2A.state (status task)); try done;
    rewrite collect_response_plain in Hsent by done;
    injection Hsent as _ Ho; by rewrite Ho.
Qed.

(** After a delegation whose task is still open and carries a context id,
    [check_state] names the agent that was delegated to. *)
Theorem open_task_keeps_agent_bound (self : Registry)
    (cb : option (RemoteAgentConnections.TaskUpdateCallback St))
    (agent_name message : string) (tc : ToolContext) (s : St)
    (sent : RemoteAgentConnections.Outcome St) (task : Task) :
  exchange (send_message_try self cb agent_name message tc s) = Some sent →
  RemoteAgentConnections.returned sent = inr (RemoteAgentConnections.RTask task) →
  A2A.state (status task) ∉ closing_states →
  opt_str_truthy (contextId task) = true →
  check_state (state (send_message self cb agent_name message tc s).2) = agent_name.
Proof.
  intros Ex Hret Hopen Hctx. rewrite send_message_context.
  pose proof (send_message_try_sent _ _ _ _ _ _ _ Ex) as Hsent. simpl in Hsent.
  apply (f_equal fst) in Hsent. simpl in Hsent. rewrite Hsent, Hret.
  rewrite apply_task_policy_state. rewrite bool_decide_eq_false_2 by done.
  destruct (contextId task) as [c|]; [|done]. simpl in Hctx. rewrite Hctx. simpl.
  unfold check_state.
  rewrite !(lookup_insert_ne _ "task_id") by done.
  rewrite lookup_insert_eq.
  rewrite !(lookup_insert_ne _ "context_id") by done.
  rewrite lookup_insert_eq.
  rewrite !(lookup_insert_ne _ "session_active") by done.
  rewrite lookup_insert_eq. done.
Qed.

(** After a delegation whose task is completed, canceled, failed or of
    unknown state, [check_state] names no agent. *)
Theorem closed_task_releases_agent (self : Registry)
    (cb : option (RemoteAgentConnections.TaskUpdateCallback St))
    (agent_name message : string) (tc : ToolContext) (s : St)
    (sent : RemoteAgentConnections.Outcome St) (task : Task) :
  exchange (send_message_try self cb agent_name message tc s) = Some sent →
  RemoteAgentConnections.returned sent = inr (RemoteAgentConnections.RTask task) →
  A2A.state (status task) ∈ closing_states →
  check_state (state (send_message self cb agent_name message tc s).2) = "None".
Proof.
  intros Ex Hret Hclosed. rewrite send_message_context.
  pose proof (send_message_try_sent _ _ _ _ _ _ _ Ex) as Hsent. simpl in Hsent.
  apply (f_equal fst) in Hsent. simpl in Hsent. rewrite Hsent, Hret.
  rewrite apply_task_policy_state. rewrite bool_decide_eq_true_2 by done.
  unfold check_state.
  assert (Hactive : ∀ m : gmap string PyVal,
            (<["task_id" := VStr (id task)]>
               (match contextId task with
                | Some c => if str_truthy c then <["context_id" := VStr c]> else λ m, m
                | None => λ m, m
                end (<["session_active" := VBool (negb true)]> m)))
            !! "session_active" = Some (VBool false)).
  { intros m. rewrite lookup_insert_ne by done.
    destruct (contextId task) as [c|]; [destruct (str_truthy c)|];
      rewrite ?(lookup_insert_ne _ "context_id") by done; by rewrite lookup_insert_eq. }
  rewrite Hactive. simpl. by rewrite andb_false_r.
Qed.

(** A delegation whose task is canceled raises the cancellation error, after
    the task id was stored and the session closed, and returns its
    traceback. *)
Theorem canceled_task_raises_after_state_update (self : Registry)
    (cb : option (RemoteAgentConnections.TaskUpdateCallback St))
    (agent_name message : string) (tc : ToolContext) (s : St)
    (sent : RemoteAgentConnections.Outcome St) (task : Task) :
  exchange (send_message_try self cb agent_name message tc s) = Some sent →
  RemoteAgentConnections.returned sent = inr (RemoteAgentConnections.RTask task) →
  A2A.state (status task) = canceled →
  let after := (send_message self cb agent_name message tc s).2 in
  (send_message self cb agent_name message tc s).1
  = Traceback (ValueError ("Agent " +:+ agent_name +:+ " task " +:+ id task
                           +:+ " is cancelled"))
  ∧ state after !! "task_id" = Some (VStr (id task))
  ∧ state after !! "session_active" = Some (VBool false)
  ∧ actions after = actions tc.
Proof.
  intros Ex Hret Hst after.
  pose proof (send_message_try_sent _ _ _ _ _ _ _ Ex) as Hsent. simpl in Hsent.
  rewrite Hret in Hsent. unfold HostAgent.apply_task_policy in Hsent.
  rewrite Hst in Hsent. injection Hsent as Hc Ho.
  unfold after, HostAgent.send_message. rewrite Ho, Hc. simpl.
  destruct (contextId task) as [c|]; [destruct (str_truthy c)|]; simpl;
    (split; [done|]); (split; [by rewrite lookup_insert_eq|]); (split; [|done]);
    repeat (rewrite lookup_insert_ne by done); by rewrite lookup_insert_eq.
Qed.

(** A successful conversion gives one value per part, leaves the session
    state alone, and has set both escalation flags as soon as one of the
    parts is a file. *)
Theorem converted_files_force_escalation (ps : list Part) (tc tc' : ToolContext)
    (vs : list Converted) :
  convert_parts ps tc = (tc', inr vs) →
  length vs = length ps
  ∧ state tc' = state tc
  ∧ (existsb is_file ps = true → escalated tc').
Proof.
  revert tc vs. induction ps as [|p ps IH]; intros tc vs; simpl.
  - by intros [= <- <-].
  - destruct (convert_part p tc) as [tc1 [e|v]] eqn:Hp; [done|].
    destruct (convert_parts ps tc1) as [tc2 [e|ws]] eqn:Hps; [done|].
    intros [= <- <-]. destruct (IH _ _ Hps) as (Hlen & Hst & Hesc).
    pose proof (convert_part_keeps b64decode save_artifact p tc) as [Hst1 _].
    rewrite Hp in Hst1. simpl in Hst1.
    split; [simpl; by rewrite Hlen|]. split; [congruence|].
    intros [Hfile|Hfile]%orb_prop; [|by apply Hesc].
    pose proof (convert_parts_keeps b64decode save_artifact ps tc1) as [_ Hkeep].
    rewrite Hps in Hkeep. apply Hkeep.
    destruct p as [| |file_id mime [b64|]]; try done. simpl in Hp.
    destruct (b64decode b64); [done|].
    destruct (save_artifact _ _ _); [done|]. by injection Hp as <- _.
Qed.

End DelegationState.

(** 'message_id' is not among the assigned keys. *)
Lemma delegation_assigns_only_its_keys_witness :
  HostAgent.state (Samples.delegate (A2A.UnaryTask Samples.answered_task)).2 !! "message_id"
  = HostAgent.state Samples.tool_context !! "message_id".
Proof.
  apply (delegation_assigns_only_its_keys Samples.b64decode Samples.save_artifact
           Samples.uuid4 _ Samples.registry None "Alpha" "hello" Samples.tool_context ()
           "message_id").
  unfold HostAgent.assigned_keys.
  repeat (apply not_elem_of_cons; split; [discriminate|]). apply not_elem_of_nil.
Defined.

(** The client times out. *)
Lemma delegation_without_task_keeps_ids_witness :
  HostAgent.state (Samples.delegate (A2A.UnaryRaises TimeoutError)).2
  = <["agent" := HostAgent.VStr "Alpha"]> (HostAgent.state Samples.tool_context).
Proof.
  apply (delegation_without_task_keeps_ids Samples.b64decode Samples.save_artifact
           Samples.uuid4 _ Samples.registry None "Alpha" "hello" Samples.tool_context ()
           (Samples.unary_outcome (inl TimeoutError))).
  - reflexivity.
  - discriminate.
Defined.

(** The client answers with a message. *)
Lemma message_reply_is_converted_witness :
  Samples.delegate (A2A.UnaryMessage Samples.reply)
  = (HostAgent.Response [HostAgent.CText "Direct response"],
     HostAgent.set_state "agent" (HostAgent.VStr "Alpha") Samples.tool_context).
Proof.
  apply (message_reply_is_converted Samples.b64decode Samples.save_artifact
           Samples.uuid4 _ Samples.registry None "Alpha" "hello" Samples.tool_context ()
           (Samples.unary_outcome (inr (RemoteAgentConnections.RMessage Samples.reply)))
           Samples.reply).
  - reflexivity.
  - reflexivity.
  - reflexivity.
Defined.

(** The client answers with the completed sample task. *)
Lemma task_parts_come_back_in_order_witness :
  (Samples.delegate (A2A.UnaryTask Samples.answered_task)).1
  = HostAgent.Response
      [HostAgent.CText "Done."; HostAgent.CText "Sunny";
       HostAgent.CData (JDict [("city", JStr "Paris")])].
Proof.
  apply (task_parts_come_back_in_order Samples.b64decode Samples.save_artifact
           Samples.uuid4 _ Samples.registry None "Alpha" "hello" Samples.tool_context ()
           (Samples.unary_outcome (inr (RemoteAgentConnections.RTask Samples.answered_task)))
           Samples.answered_task).
  - reflexivity.
  - reflexivity.
  - discriminate.
  - discriminate.
  - reflexivity.
Defined.

(** The client answers with a task that is still working. *)
Lemma open_task_keeps_agent_bound_witness :
  HostAgent.check_state
    (HostAgent.state (Samples.delegate (A2A.UnaryTask (Samples.task_in A2A.working))).2)
  = "Alpha".
Proof.
  apply (open_task_keeps_agent_bound Samples.b64decode Samples.save_artifact
           Samples.uuid4 _ Samples.registry None "Alpha" "hello" Samples.tool_context ()
           (Samples.unary_outcome
              (inr (RemoteAgentConnections.RTask (Samples.task_in A2A.working))))
           (Samples.task_in A2A.working)).
  - reflexivity.
  - reflexivity.
  - unfold HostAgent.closing_states.
    repeat (apply not_elem_of_cons; split; [discriminate|]). apply not_elem_of_nil.
  - reflexivity.
Defined.

(** The client answers with a completed task. *)
Lemma closed_task_releases_agent_witness :
  HostAgent.check_state
    (HostAgent.state (Samples.delegate (A2A.UnaryTask Samples.answered_task)).2)
  = "None".
Proof.
  apply (closed_task_releases_agent Samples.b64decode Samples.save_artifact
           Samples.uuid4 _ Samples.registry None "Alpha" "hello" Samples.tool_context ()
           (Samples.unary_outcome (inr (RemoteAgentConnections.RTask Samples.answered_task)))
           Samples.answered_task).
  - reflexivity.
  - reflexivity.
  - apply elem_of_cons. by left.
Defined.

(** The client answers with a canceled task. *)
Lemma canceled_task_raises_after_state_update_witness :
  let after := (Samples.delegate (A2A.UnaryTask (Samples.task_in A2A.canceled))).2 in
  (Samples.delegate (A2A.UnaryTask (Samples.task_in A2A.canceled))).1
  = HostAgent.Traceback (ValueError "Agent Alpha task task-1 is cancelled")
  ∧ HostAgent.state after !! "task_id" = Some (HostAgent.VStr "task-1")
  ∧ HostAgent.state after !! "session_active" = Some (HostAgent.VBool false)
  ∧ HostAgent.actions after = HostAgent.actions Samples.tool_context.
Proof.
  apply (canceled_task_raises_after_state_update Samples.b64decode Samples.save_artifact
           Samples.uuid4 _ Samples.registry None "Alpha" "hello" Samples.tool_context ()
           (Samples.unary_outcome
              (inr (RemoteAgentConnections.RTask (Samples.task_in A2A.canceled))))
           (Samples.task_in A2A.canceled)).
  - reflexivity.
  - reflexivity.
  - reflexivity.
Defined.

(** A text and a file. *)
Lemma converted_files_force_escalation_witness :
  let ps := [A2A.TextPart "see the report";
             A2A.FilePart (Some "report.pdf") (Some "application/pdf") (Some "cGRm")] in
  let converted :=
    HostAgent.convert_parts Samples.b64decode Samples.save_artifact ps Samples.tool_context in
  length [HostAgent.CText "see the report";
          HostAgent.CFileRef (A2A.DataPart (JDict [("artifact-file-id", JStr "report.pdf")]))]
  = length ps
  ∧ HostAgent.state converted.1 = HostAgent.state Samples.tool_context
  ∧ (existsb HostAgent.is_file ps = true → HostAgent.escalated converted.1).
Proof.
  intros ps converted.
  apply (converted_files_force_escalation Samples.b64decode Samples.save_artifact
           ps Samples.tool_context converted.1).
  reflexivity.
Defined.

(** ** The session service *)
Section SessionService.
Import LimitedContextGetSessionService.

(** The number of recent events handed to the parent is always set and never
    above the cap; a request within the cap is passed on as it is. *)
Theorem get_session_caps_recent_events (cap : Z) (config : option GetSessionConfig) :
  ∃ n, num_recent_events (effective_config cap config) = Some n
       ∧ (n ≤ cap)%Z
       ∧ ∀ c m, config = Some c → num_recent_events c = Some m → n = Z.min m cap.
Proof.
  unfold effective_config. destruct config as [[[m|]]|]; simpl.
  - destruct (Z.gtb_spec m cap); simpl.
    + exists cap. split; [done|]. split; [lia|]. intros c m' [= <-] [= <-]. lia.
    + exists m. split; [done|]. split; [lia|]. intros c m' [= <-] [= <-]. lia.
  - exists cap. split; [done|]. split; [lia|]. by intros c m' [= <-].
  - exists cap. split; [done|]. split; [lia|]. done.
Qed.

End SessionService.

(** ** The stream generators, event by event *)
Section StreamItems.
Import ADK Stream.

(** In the router, text counts only when the first part has some: with a
    first part without text and no function response anywhere, the content
    is the empty string whatever the later parts say, where the agent joins
    the texts of all parts. *)
Theorem router_reads_text_from_first_part_only (p0 : ContentPart) (ps : list ContentPart) :
  opt_str_truthy (text p0) = false →
  forallb (λ p, negb (bool_decide (is_Some (function_response p)))) (p0 :: ps) = true →
  RouterAgent.final_response (p0 :: ps) = inr (Text "")
  ∧ (existsb (λ p, opt_str_truthy (text p)) ps = true →
     AgentEvolution.final_response (p0 :: ps) = Some (Text (join_texts (p0 :: ps)))).
Proof.
  intros Ht Hf. split.
  - unfold RouterAgent.final_response. rewrite Ht.
    replace (existsb _ (p0 :: ps)) with false; [done|].
    symmetry. apply not_true_is_false. intros (p & Hin & Hp)%existsb_exists.
    rewrite forallb_forall in Hf. specialize (Hf p Hin). by rewrite Hp in Hf.
  - intros Hex. unfold AgentEvolution.final_response. simpl. by rewrite Ht, Hex.
Qed.

(** In the router, a final event whose first part has neither text nor a
    function response, while a later part has one, ends the generator with
    an [AttributeError]: the response is taken from the first part. *)
Theorem router_raises_on_late_function_response (event : Event) (p0 : ContentPart)
    (ps : list ContentPart) (evs : list Event) (failure : option PyExn) :
  is_final_response event = true →
  content_parts event = p0 :: ps →
  opt_str_truthy (text p0) = false →
  function_response p0 = None →
  existsb (λ p, bool_decide (is_Some (function_response p))) ps = true →
  RouterAgent.stream_events (event :: evs) failure
  = {| yielded := [];
       raised := Some (AttributeError "'NoneType' object has no attribute 'model_dump'") |}.
Proof.
  intros Hfin Hparts Ht Hf Hex. simpl. rewrite Hfin, Hparts. simpl.
  by rewrite Ht, Hf, Hex.
Qed.

(** When the router's generator ends without an exception, it has yielded
    one item per event of the run: a completed item for every final event and
    a progress update for every other. *)
Theorem router_stream_one_item_per_event (evs : list Event) :
  raised (RouterAgent.stream_events evs None) = None →
  is_task_complete <$> yielded (RouterAgent.stream_events evs None)
  = is_final_response <$> evs.
Proof.
  induction evs as [|event evs IH]; simpl; [done|].
  destruct (is_final_response event); simpl.
  - destruct (RouterAgent.final_response _); simpl; [done|].
    intros H. f_equal. exact (IH H).
  - intros H. f_equal. exact (IH H).
Qed.

(** Every item the agent's generator yields has something to show: a
    completed item never has empty content, a progress update never an empty
    text. *)
Theorem agent_stream_items_are_never_empty (pm : option string) (runner : Runner)
    (query session_id : string) :
  Forall (λ item, match item with
                  | Complete c => AgentEvolution.content_truthy c = true
                  | Update u => str_truthy u = true
                  end)
         (yielded (AgentEvolution.stream pm runner query session_id)).
Proof.
  assert (Hloop : ∀ evs failure,
            Forall (λ item, match item with
                            | Complete c => AgentEvolution.content_truthy c = true
                            | Update u => str_truthy u = true
                            end)
                   (yielded (AgentEvolution.stream_events pm evs failure))).
  { intros evs failure.
    assert (Hup : match AgentEvolution.processing_update pm with
                  | Complete c => AgentEvolution.content_truthy c = true
                  | Update u => str_truthy u = true
                  end).
    { unfold AgentEvolution.processing_update, AgentEvolution.get_processing_message.
      destruct pm as [m|]; [|done]. by destruct (str_truthy m) eqn:Hm. }
    induction evs as [|event evs IH]; simpl; [constructor|].
    destruct (is_final_response event); [|by constructor].
    destruct (AgentEvolution.final_response _) as [c|]; [|by constructor].
    destruct (AgentEvolution.content_truthy c) eqn:Hc; by constructor. }
  unfold AgentEvolution.stream.
  destruct (get_session runner session_id) as [e|found]; [constructor|].
  match goal with
  | |- context [match ?x with inl _ => _ | inr _ => _ end] => destruct x as [e|sid]
  end; [constructor|].
  unfold AgentEvolution.handle.
  destruct (raised _); [|apply Hloop]. simpl.
  apply Forall_app. split; [apply Hloop|]. constructor; [|constructor].
  simpl. by destruct (is_timeout _).
Qed.

(** Once its session is found or created, the agent's generator never
    raises: it yields one item per event of the run and, when the run fails,
    one more that reports the failure ("timed out" for a timeout, the error
    text otherwise). *)
Theorem agent_stream_reports_failures (pm : option string) (runner : Runner)
    (query session_id sid : string) :
  get_session runner session_id = inr (Some sid)
  ∨ (get_session runner session_id = inr None ∧ create_session runner session_id = inr sid) →
  let generated := AgentEvolution.stream pm runner query session_id in
  let run := run_async runner sid query in
  raised generated = None
  ∧ match run_failure run with
    | None => length (yielded generated) = length (events run)
    | Some e =>
        length (yielded generated) = S (length (events run))
        ∧ last (yielded generated)
          = Some (Complete (Text (if is_timeout e
                                  then "Agent timed out while processing request"
                                  else "Agent error: " +:+ exn_str e)))
    end.
Proof.
  assert (Hlen : ∀ evs failure,
            length (yielded (AgentEvolution.stream_events pm evs failure)) = length evs).
  { intros evs failure. induction evs as [|event evs IH]; simpl; [done|].
    destruct (is_final_response event); [|simpl; by rewrite IH].
    destruct (AgentEvolution.final_response _) as [c|]; [|simpl; by rewrite IH].
    destruct (AgentEvolution.content_truthy c); simpl; by rewrite IH. }
  intros Hsession generated run.
  assert (Hgen : generated
                 = AgentEvolution.handle
                     (AgentEvolution.stream_events pm (events run) (run_failure run))).
  { unfold generated, AgentEvolution.stream.
    destruct Hsession as [-> | [-> ->]]; done. }
  rewrite Hgen. split; [apply agent_stream_events_guarded|].
  destruct (run_failure run) as [e|] eqn:Hf.
  - split; [|apply agent_stream_events_failure].
    unfold AgentEvolution.handle. rewrite agent_stream_events_raised. simpl.
    rewrite length_app, Hlen. simpl. lia.
  - unfold AgentEvolution.handle. rewrite agent_stream_events_raised. apply Hlen.
Qed.

End StreamItems.

(** ** The execution adapter on every kind of item *)
Section ExecutorItems.
Import A2A Stream MyAgentExecutor.

Local Abbreviation progress task :=
  (λ updates, update_status working
                (new_agent_text_message updates (contextId task) (id task)) false).

(** The input request published for one element of a result list. *)
Local Abbreviation input_request task :=
  (λ element, update_status input_required
                (new_agent_parts_message [DataPart (JDict element)] (contextId task) (id task))
                true).

(** Progress items are published one by one before anything else is looked
    at. *)
Lemma consume_items_progress (updates : list string) (items : list Item)
    (ending : option PyExn) (task : Task) :
  consume_items ((Update <$> updates) ++ items) ending task
  = ((progress task <$> updates) ++ (consume_items items ending task).1,
     (consume_items items ending task).2).
Proof.
  induction updates as [|u updates IH].
  - simpl. by destruct (consume_items items ending task).
  - rewrite !fmap_cons, <- !app_comm_cons. cbn [consume_items]. by rewrite IH.
Qed.

Lemma publish_results_dicts (ds : list (list (string * Json))) (task : Task) :
  publish_results (JDict <$> ds) task = (input_request task <$> ds, None).
Proof.
  induction ds as [|d ds IH]; [done|].
  rewrite !fmap_cons. cbn [publish_results]. by rewrite IH.
Qed.

Lemma publish_results_statuses (results : list Json) (task : Task) :
  Forall (λ p, ∃ st m f, p = update_status st m f) (publish_results results task).1.
Proof.
  induction results as [|x results IH]; simpl; [constructor|].
  destruct x; simpl; try constructor.
  destruct (publish_results results task) as [pubs exc]. simpl in *.
  constructor; [by eexists _, _, _ | done].
Qed.

Lemma publish_structured_statuses (d : list (string * Json)) (task : Task) :
  Forall (λ p, ∃ st m f, p = update_status st m f) (publish_structured d task).1.
Proof.
  unfold publish_structured.
  assert (Hfail : ∀ m, Forall (λ p, ∃ st m f, p = update_status st m f)
                         [update_status failed m true])
    by (intros m; constructor; [by eexists _, _, _ | constructor]).
  destruct (dict_get "response" d) as [response|]; [|apply Hfail].
  destruct (has_result response) as [e|[|]]; [constructor| |apply Hfail].
  destruct (get_result response) as [e|results]; [constructor|].
  destruct (iterate results) as [e|elements]; [constructor|].
  apply publish_results_statuses.
Qed.

(** A completed item shaped [{'response': {'result': [...]}}] whose results
    are dictionaries is published as one final input request per result, in
    order, after the progress updates before it; nothing after it is read. *)
Theorem structured_results_become_input_requests (d response : list (string * Json))
    (results : list (list (string * Json))) (updates : list string)
    (rest : list Item) (ending : option PyExn) (task : Task) :
  dict_get "response" d = Some (JDict response) →
  dict_get "result" response = Some (JList (JDict <$> results)) →
  consume_items ((Update <$> updates) ++ Complete (Structured d) :: rest) ending task
  = ((progress task <$> updates) ++ (input_request task <$> results), None).
Proof.
  intros Hd Hr. rewrite consume_items_progress. cbn [consume_items].
  unfold publish_structured. rewrite Hd. simpl. rewrite Hr. simpl.
  by rewrite publish_results_dicts.
Qed.

(** A completed item that is a dictionary without 'response', or whose
    'response' is a dictionary without 'result', is published as one final
    "failed" status that says so. *)
Theorem unexpected_structure_fails_the_task (d : list (string * Json))
    (updates : list string) (rest : list Item) (ending : option PyExn) (task : Task) :
  dict_get "response" d = None
  ∨ (∃ response, dict_get "response" d = Some (JDict response)
                 ∧ dict_get "result" response = None) →
  consume_items ((Update <$> updates) ++ Complete (Structured d) :: rest) ending task
  = ((progress task <$> updates)
     ++ [update_status failed
           (new_agent_text_message "Reaching an unexpected state" (contextId task) (id task))
           true],
     None).
Proof.
  intros Hshape. rewrite consume_items_progress. cbn [consume_items].
  unfold publish_structured.
  destruct Hshape as [-> | (response & -> & Hr)]; [done|]. simpl. by rewrite Hr.
Qed.

(** The task is marked complete exactly when the opening log line does not
    raise (there is no current task, or the request context has the attribute
    it reads) and the first completed item of the stream carries text: never
    for a dictionary, never when the stream ends or fails before completing. *)
Theorem task_completes_only_on_text (context : RequestContext) (created : Task)
    (stream : option string → Generated) :
  let task := default created (current_task context) in
  complete ∈ (execute context created stream).1
  ↔ (∃ logged, logged_context_id context = inr logged)
    ∧ ∃ s, first_complete (yielded (stream (contextId task))) = Some (Text s).
Proof.
  assert (Hloop : ∀ task items ending,
            complete ∈ (consume_items items ending task).1
            ↔ ∃ s, first_complete items = Some (Text s)).
  { intros task items ending. induction items as [|[[s|d]|u] items IH]; simpl.
    - split; [by intros ?%elem_of_nil | by intros [s ?]].
    - split; [by exists s|]. intros _.
      apply elem_of_cons. right. apply elem_of_cons. by left.
    - split; [|by intros [s ?]]. intros Hin.
      pose proof (publish_structured_statuses d task) as Hst.
      rewrite Forall_forall in Hst. by destruct (Hst _ Hin) as (? & ? & ? & ?).
    - destruct (consume_items items ending task) as [pubs exc]. simpl in *.
      rewrite <- IH, elem_of_cons. split; [by intros [?|?] | by right]. }
  unfold execute. destruct (logged_context_id context) as [e|logged] eqn:Hlog; cbv zeta.
  - simpl. split; [by intros ?%elem_of_nil | by intros [[logged ?] _]].
  - destruct (current_task context) as [t|]; cbn [default].
    + pose proof (Hloop t (yielded (stream (contextId t)))
                    (raised (stream (contextId t)))) as H.
      destruct (consume_items _ _ t) as [pubs exc]. simpl in *.
      rewrite H. split; [by split; [exists logged|] | by intros [_ ?]].
    + pose proof (Hloop created (yielded (stream (contextId created)))
                    (raised (stream (contextId created)))) as H.
      destruct (consume_items _ _ created) as [pubs exc]. simpl in *.
      rewrite <- H, elem_of_cons.
      split; [intros [?|?]; [done|by split; [exists logged|]] | intros [_ ?]; by right].
Qed.

(** Progress events of a run are passed on by the router as progress
    updates. *)
Lemma router_stream_events_progress (evs more : list ADK.Event) (failure : option PyExn) :
  forallb (λ e, negb (ADK.is_final_response e)) evs = true →
  RouterAgent.stream_events (evs ++ more) failure
  = {| yielded := (Update <$> replicate (length evs) RouterAgent.get_processing_message)
                  ++ yielded (RouterAgent.stream_events more failure);
       raised := raised (RouterAgent.stream_events more failure) |}.
Proof.
  induction evs as [|event evs IH]; simpl.
  - by destruct (RouterAgent.stream_events more failure).
  - intros [Hev Hevs]%andb_prop. apply negb_true_iff in Hev. rewrite Hev.
    rewrite IH by done. done.
Qed.

(** Router and adapter together: a final event without content, after any
    number of progress events, completes the task with an artifact "form"
    that holds the empty string. *)
Theorem empty_final_event_completes_with_empty_form (runner : ADK.Runner)
    (query session_id sid : string) (evs : list ADK.Event) (event : ADK.Event)
    (rest : list ADK.Event) (task : Task) :
  ADK.get_session runner session_id = inr (Some sid) →
  ADK.events (ADK.run_async runner sid query) = evs ++ event :: rest →
  forallb (λ e, negb (ADK.is_final_response e)) evs = true →
  ADK.is_final_response event = true →
  no_content (ADK.content_parts event) = true →
  let generated := RouterAgent.stream runner query session_id in
  consume_items (yielded generated) (raised generated) task
  = ((progress task <$> replicate (length evs) RouterAgent.get_processing_message)
     ++ [add_artifact [TextPart ""] "form"; complete],
     None).
Proof.
  intros Hsession Hevents Hprogress Hfinal Hempty generated.
  unfold generated, RouterAgent.stream. rewrite Hsession, Hevents.
  rewrite router_stream_events_progress by done.
  rewrite router_stream_events_no_content by done.
  cbn [yielded raised yield]. by rewrite consume_items_text.
Qed.

(** Router and adapter together: when the run fails before any final event,
    the adapter has published the progress updates and then raises the
    failure of the run; no terminal status is published. *)
Theorem run_failure_escapes_the_adapter (runner : ADK.Runner)
    (query session_id sid : string) (e : PyExn) (task : Task) :
  ADK.get_session runner session_id = inr (Some sid) →
  forallb (λ e, negb (ADK.is_final_response e))
    (ADK.events (ADK.run_async runner sid query)) = true →
  ADK.run_failure (ADK.run_async runner sid query) = Some e →
  let generated := RouterAgent.stream runner query session_id in
  consume_items (yielded generated) (raised generated) task
  = (progress task
       <$> replicate (length (ADK.events (ADK.run_async runner sid query)))
             RouterAgent.get_processing_message,
     Some e).
Proof.
  intros Hsession Hprogress Hfailure generated.
  unfold generated, RouterAgent.stream. rewrite Hsession, Hfailure.
  pose proof (router_stream_events_progress _ [] (Some e) Hprogress) as Hrun.
  rewrite app_nil_r in Hrun. rewrite Hrun.
  cbn [RouterAgent.stream_events yielded raised].
  rewrite consume_items_progress. cbn [consume_items fst snd].
  by rewrite app_nil_r.
Qed.

End ExecutorItems.

(** A first part without text, then a part that says "Sunny". *)
Lemma router_reads_text_from_first_part_only_witness :
  RouterAgent.final_response [Samples.blank_part; Samples.text_part "Sunny"]
  = inr (Stream.Text "")
  ∧ (existsb (λ p, opt_str_truthy (ADK.text p)) [Samples.text_part "Sunny"] = true →
     AgentEvolution.final_response [Samples.blank_part; Samples.text_part "Sunny"]
     = Some (Stream.Text (Stream.join_texts [Samples.blank_part; Samples.text_part "Sunny"]))).
Proof.
  apply (router_reads_text_from_first_part_only Samples.blank_part
           [Samples.text_part "Sunny"]).
  - reflexivity.
  - reflexivity.
Defined.

(** A first part without anything, then a part with a function response. *)
Lemma router_raises_on_late_function_response_witness :
  RouterAgent.stream_events
    [Samples.final_event [Samples.blank_part; Samples.call_part [("name", JStr "send_message")]]]
    None
  = {| Stream.yielded := [];
       Stream.raised :=
         Some (AttributeError "'NoneType' object has no attribute 'model_dump'") |}.
Proof.
  apply (router_raises_on_late_function_response
           (Samples.final_event
              [Samples.blank_part; Samples.call_part [("name", JStr "send_message")]])
           Samples.blank_part [Samples.call_part [("name", JStr "send_message")]] [] None);
    reflexivity.
Defined.

(** A progress event, then a final event with text. *)
Lemma router_stream_one_item_per_event_witness :
  Stream.is_task_complete
    <$> Stream.yielded
          (RouterAgent.stream_events
             [Samples.progress_event; Samples.final_event [Samples.text_part "Sunny"]] None)
  = [false; true].
Proof.
  apply (router_stream_one_item_per_event
           [Samples.progress_event; Samples.final_event [Samples.text_part "Sunny"]]).
  reflexivity.
Defined.

(** The run times out after one progress event. *)
Lemma agent_stream_reports_failures_witness :
  let generated :=
    AgentEvolution.stream None
      (Samples.runner {| ADK.events := [Samples.progress_event];
                         ADK.run_failure := Some TimeoutError |})
      "query" "session-1" in
  Stream.raised generated = None
  ∧ length (Stream.yielded generated) = 2%nat
  ∧ last (Stream.yielded generated)
    = Some (Stream.Complete (Stream.Text "Agent timed out while processing request")).
Proof.
  apply (agent_stream_reports_failures None
           (Samples.runner {| ADK.events := [Samples.progress_event];
                              ADK.run_failure := Some TimeoutError |})
           "query" "session-1" "session-1").
  left. reflexivity.
Defined.

(** One clarification request in the result list. *)
Lemma structured_results_become_input_requests_witness :
  MyAgentExecutor.consume_items
    [Stream.Update "working";
     Stream.Complete
       (Stream.Structured
          [("name", JStr "send_message");
           ("response", JDict [("result", JList [JDict [("city", JStr "Paris")]])])])]
    None Samples.answered_task
  = ([MyAgentExecutor.update_status A2A.working
        (MyAgentExecutor.new_agent_text_message "working" (Some "ctx-2") "task-2") false;
      MyAgentExecutor.update_status A2A.input_required
        (MyAgentExecutor.new_agent_parts_message
           [A2A.DataPart (JDict [("city", JStr "Paris")])] (Some "ctx-2") "task-2")
        true],
     None).
Proof.
  apply (structured_results_become_input_requests
           [("name", JStr "send_message");
            ("response", JDict [("result", JList [JDict [("city", JStr "Paris")]])])]
           [("result", JList [JDict [("city", JStr "Paris")]])]
           [[("city", JStr "Paris")]] ["working"] [] None Samples.answered_task);
    reflexivity.
Defined.

(** A function response without 'response'. *)
Lemma unexpected_structure_fails_the_task_witness :
  MyAgentExecutor.consume_items
    [Stream.Complete (Stream.Structured [("name", JStr "send_message")])]
    None Samples.answered_task
  = ([MyAgentExecutor.update_status A2A.failed
        (MyAgentExecutor.new_agent_text_message "Reaching an unexpected state"
           (Some "ctx-2") "task-2")
        true],
     None).
Proof.
  apply (unexpected_structure_fails_the_task [("name", JStr "send_message")]
           [] [] None Samples.answered_task).
  left. reflexivity.
Defined.

(** A progress event, then a final event without content. *)
Lemma empty_final_event_completes_with_empty_form_witness :
  let generated :=
    RouterAgent.stream
      (Samples.runner {| ADK.events := [Samples.progress_event; Samples.empty_final_event];
                         ADK.run_failure := None |})
      "query" "session-1" in
  MyAgentExecutor.consume_items (Stream.yielded generated) (Stream.raised generated)
    Samples.answered_task
  = ([MyAgentExecutor.update_status A2A.working
        (MyAgentExecutor.new_agent_text_message RouterAgent.get_processing_message
           (Some "ctx-2") "task-2")
        false;
      MyAgentExecutor.add_artifact [A2A.TextPart ""] "form";
      MyAgentExecutor.complete],
     None).
Proof.
  apply (empty_final_event_completes_with_empty_form
           (Samples.runner {| ADK.events := [Samples.progress_event; Samples.empty_final_event];
                              ADK.run_failure := None |})
           "query" "session-1" "session-1" [Samples.progress_event]
           Samples.empty_final_event [] Samples.answered_task);
    reflexivity.
Defined.

(** The run breaks off after one progress event. *)
Lemma run_failure_escapes_the_adapter_witness :
  let generated :=
    RouterAgent.stream
      (Samples.runner {| ADK.events := [Samples.progress_event];
                         ADK.run_failure := Some (OtherError "connection reset") |})
      "query" "session-1" in
  MyAgentExecutor.consume_items (Stream.yielded generated) (Stream.raised generated)
    Samples.answered_task
  = ([MyAgentExecutor.update_status A2A.working
        (MyAgentExecutor.new_agent_text_message RouterAgent.get_processing_message
           (Some "ctx-2") "task-2")
        false],
     Some (OtherError "connection reset")).
Proof.
  apply (run_failure_escapes_the_adapter
           (Samples.runner {| ADK.events := [Samples.progress_event];
                              ADK.run_failure := Some (OtherError "connection reset") |})
           "query" "session-1" "session-1" (OtherError "connection reset")
           Samples.answered_task);
    reflexivity.
Defined.
